(** * json-validator-typescript-action: a shallow embedding of [src/main.ts]

    The action scans a folder for [*.json] files, validates each one for
    JSON syntax and, when a schema applies, against that schema, and reports
    the counts through the GitHub Actions toolkit.

    The embedding follows [src/main.ts] function by function.  Everything the
    source obtains from its environment (the file system, [JSON.parse],
    [fast-glob], [Ajv], the action inputs, the working directory) is a field
    of the record [Host]; the calls the source makes on that environment are
    recorded, in order, in a trace of [event]s, and a thrown JavaScript
    exception is the [Throw] outcome of the monad [M]. *)

From Stdlib Require Import String Ascii List Bool Arith Lia DecimalString.
Import ListNotations.
Local Open Scope list_scope.
Local Open Scope string_scope.

Set Implicit Arguments.

(** ** JavaScript values *)

(** What [JSON.parse] produces.  An object keeps its members in document
    order; a repeated key is resolved when a property is read (the last
    occurrence wins, as in ECMAScript). Numbers keep their lexeme. *)
#[local] Unset Elimination Schemes.
Inductive json : Type :=
| JNull
| JBool (b : bool)
| JNumber (lexeme : string)
| JString (s : string)
| JArray (items : list json)
| JObject (members : list (string * json)).
#[local] Set Elimination Schemes.

(** A thrown value: an [Error] instance with its [name] and [message], or
    any other value, kept as the text [String(value)] gives. *)
Inductive exn : Type :=
| JsError (name message : string)
| JsValue (text : string).

(** [error instanceof Error ? error.message : String(error)] *)
Definition errorMessage (error : exn) : string :=
  match error with
  | JsError _ message => message
  | JsValue text => text
  end.

(** The text of [`${error}`]: [Error.prototype.toString] for an [Error]. *)
Definition String_of_exn (error : exn) : string :=
  match error with
  | JsError name message =>
      if (name =? "") then message
      else if (message =? "") then name
      else name ++ ": " ++ message
  | JsValue text => text
  end.

(** Truthiness of a string: only the empty string is falsy. *)
Definition truthy (s : string) : bool := negb (s =? "").

(** [`${n}`] for a non-negative integer. *)
Definition String_of_nat (n : nat) : string :=
  NilEmpty.string_of_uint (Nat.to_uint n).

(** [`${s}`] for an optional string: [undefined] prints as its name. *)
Definition template (s : option string) : string :=
  match s with
  | Some text => text
  | None => "undefined"
  end.

(** [String.prototype.startsWith] *)
Definition startsWith (s p : string) : bool := String.prefix p s.

(** [Array.prototype.join] on strings. *)
Fixpoint join (sep : string) (parts : list string) : string :=
  match parts with
  | [] => ""
  | [p] => p
  | p :: rest => p ++ sep ++ join sep rest
  end.

(** Property read [data[key]] on a parsed object: the last member with that
    key, [None] when there is none. *)
Fixpoint getProperty (key : string) (members : list (string * json))
  : option json :=
  match members with
  | [] => None
  | (k, v) :: rest =>
      match getProperty key rest with
      | Some later => Some later
      | None => if (k =? key) then Some v else None
      end
  end.

(** ** Node's [path] module, POSIX flavour *)

Module path.

Definition slash : ascii := "/"%char.

(** The segments of a path between its separators. *)
Fixpoint split (p : string) : list string :=
  match p with
  | EmptyString => [""]
  | String c rest =>
      if Ascii.eqb c slash then "" :: split rest
      else match split rest with
           | [] => [String c ""]
           | seg :: segs => String c seg :: segs
           end
  end.

(** [normalizeString]: empty and [.] segments vanish, [..] removes the
    segment before it, or stays when there is none and [allowAboveRoot].
    [acc] holds the segments kept so far, last one first. *)
Fixpoint normalizeSegments (allowAboveRoot : bool) (acc : list string)
         (segs : list string) : list string :=
  match segs with
  | [] => rev acc
  | seg :: rest =>
      if (seg =? "") || (seg =? ".") then
        normalizeSegments allowAboveRoot acc rest
      else if (seg =? "..") then
        match acc with
        | top :: below =>
            if (top =? "..") then
              normalizeSegments allowAboveRoot
                (if allowAboveRoot then ".." :: acc else acc) rest
            else normalizeSegments allowAboveRoot below rest
        | [] =>
            normalizeSegments allowAboveRoot
              (if allowAboveRoot then [".."] else []) rest
        end
      else normalizeSegments allowAboveRoot (seg :: acc) rest
  end.

Definition normalizeString (p : string) (allowAboveRoot : bool) : string :=
  join "/" (normalizeSegments allowAboveRoot [] (split p)).

Definition isAbsolute (p : string) : bool :=
  match p with
  | String c _ => Ascii.eqb c slash
  | EmptyString => false
  end.

Definition endsWithSlash (p : string) : bool :=
  match rev (list_ascii_of_string p) with
  | c :: _ => Ascii.eqb c slash
  | [] => false
  end.

(** [path.normalize] *)
Definition normalize (p : string) : string :=
  if (p =? "") then "."
  else
    let absolute := isAbsolute p in
    let trailing := endsWithSlash p in
    let body := normalizeString p (negb absolute) in
    if (body =? "") then
      (if absolute then "/" else if trailing then "./" else ".")
    else
      let body := if trailing then body ++ "/" else body in
      if absolute then "/" ++ body else body.

(** [path.join]: the non-empty arguments, joined by a separator, then
    normalized. *)
Definition joinPaths (parts : list string) : string :=
  match filter truthy parts with
  | [] => "."
  | kept => normalize (join "/" kept)
  end.

(** The loop of [path.resolve], from the last argument to the first and
    then the working directory, until the path built is absolute. *)
Fixpoint resolveLoop (rargs : list string) (resolvedPath : string)
  : string * bool :=
  match rargs with
  | [] => (resolvedPath, false)
  | p :: before =>
      if (p =? "") then resolveLoop before resolvedPath
      else
        let resolvedPath := p ++ "/" ++ resolvedPath in
        if isAbsolute p then (resolvedPath, true)
        else resolveLoop before resolvedPath
  end.

(** [path.resolve(...args)] in a process whose working directory is
    [cwd]. *)
Definition resolve (cwd : string) (args : list string) : string :=
  let '(resolvedPath, resolvedAbsolute) :=
    resolveLoop (rev (cwd :: args)) "" in
  let body := normalizeString resolvedPath (negb resolvedAbsolute) in
  if resolvedAbsolute then "/" ++ body
  else if (body =? "") then "." else body.

Fixpoint dropWhile (f : ascii -> bool) (l : list ascii) : list ascii :=
  match l with
  | [] => []
  | c :: l' => if f c then dropWhile f l' else l
  end.

(** [path.dirname]: the scan runs from the end down to index 1, over the
    trailing separators and then over the last segment; [end] is the index
    of the separator found before that segment. *)
Definition dirname (p : string) : string :=
  match list_ascii_of_string p with
  | [] => "."
  | c0 :: rest =>
      let hasRoot := Ascii.eqb c0 slash in
      let afterSlashes := dropWhile (fun c => Ascii.eqb c slash) (rev rest) in
      let afterSegment :=
        dropWhile (fun c => negb (Ascii.eqb c slash)) afterSlashes in
      match afterSegment with
      | [] => if hasRoot then "/" else "."
      | _ :: before =>
          if hasRoot && Nat.eqb (length afterSegment) 1 then "//"
          else string_of_list_ascii (c0 :: rev before)
      end
  end.

(** Drops the segments two paths have in common at their start. *)
Fixpoint dropCommon (from to : list string) : list string * list string :=
  match from, to with
  | f :: from', t :: to' =>
      if (f =? t) then dropCommon from' to' else (from, to)
  | _, _ => (from, to)
  end.

(** [path.relative(from, to)] *)
Definition relative (cwd from to : string) : string :=
  if (from =? to) then ""
  else
    let from := resolve cwd [from] in
    let to := resolve cwd [to] in
    if (from =? to) then ""
    else
      let '(up, down) :=
        dropCommon (normalizeSegments false [] (split from))
                   (normalizeSegments false [] (split to)) in
      join "/" (map (fun _ => "..") up ++ down)%list.

End path.

(** ** The libraries the action calls *)

(** The options object handed to [fast-glob]. *)
Record FgOptions : Type := {
  fg_cwd : string;
  fg_absolute : bool;
  fg_ignore : list string
}.

(** The options of [new Ajv(...)], and whether [addFormats] was applied to
    the instance before compiling. *)
Record AjvOptions : Type := {
  allErrors : bool;
  withFormats : bool
}.

(** One entry of [validate.errors]; Ajv types [message] as optional. *)
Record ErrorObject : Type := {
  instancePath : string;
  message : option string
}.

(** The outcome of a JavaScript computation: a value, or a thrown one. *)
Inductive outcome (A : Type) : Type :=
| Ok (value : A)
| Throw (error : exn).
Arguments Ok {A} value.
Arguments Throw {A} error.

(** A compiled validator: called on parsed data it answers [true] or
    [false] and leaves the violations in its [errors] property ([null] or
    an array). *)
Definition ValidateFunction : Type :=
  json -> outcome (bool * option (list ErrorObject)).

(** The environment of one run.  The file system is the same throughout
    the run: reading a path twice gives the same answer. *)
Record Host : Type := {
  cwd : string;                                  (* process.cwd() *)
  getInput : string -> string;                   (* core.getInput *)
  readFileSync : string -> outcome string;       (* fs.readFileSync(p, 'utf-8') *)
  existsSync : string -> bool;                   (* fs.existsSync *)
  JSON_parse : string -> outcome json;           (* JSON.parse *)
  fg : string -> FgOptions -> outcome (list string);          (* fast-glob *)
  ajv_compile : AjvOptions -> json -> outcome ValidateFunction (* ajv.compile *)
}.

(** ** Effects *)

(** What a run does to the outside world, in the order it does it. *)
Inductive event : Type :=
| Info (msg : string)                  (* core.info *)
| Warning (msg : string)               (* core.warning *)
| Error (msg : string)                 (* core.error *)
| SetOutput (name : string) (value : nat)   (* core.setOutput *)
| SetFailed (msg : string)             (* core.setFailed *)
| Glob (pattern : string) (options : FgOptions)
| FsRead (file : string)
| FsExists (file : string)
| AjvCompile (options : AjvOptions) (schema : json).

(** A computation: the events it emitted and how it ended. *)
Definition M (A : Type) : Type := (list event * outcome A)%type.

Definition ret {A} (a : A) : M A := ([], Ok a).

Definition throw {A} (e : exn) : M A := ([], Throw e).

Definition emit (e : event) : M unit := ([e], Ok tt).

Definition bind {A B} (m : M A) (k : A -> M B) : M B :=
  match m with
  | (evs, Ok a) => let '(evs', r) := k a in ((evs ++ evs')%list, r)
  | (evs, Throw e) => (evs, Throw e)
  end.

(** [try { body } catch (error) { handler }] *)
Definition try_catch {A} (body : M A) (handler : exn -> M A) : M A :=
  match body with
  | (evs, Ok a) => (evs, Ok a)
  | (evs, Throw e) => let '(evs', r) := handler e in ((evs ++ evs')%list, r)
  end.

(** A library call: the event, then the value or the exception. *)
Definition call {A} (e : event) (r : outcome A) : M A := ([e], r).

(** A pure expression that may throw. *)
Definition lift {A} (r : outcome A) : M A := ([], r).

Notation "x <- m ;; k" := (bind m (fun x => k))
  (at level 61, m at next level, right associativity).
Notation "m ;; k" := (bind m (fun _ => k))
  (at level 61, right associativity).

Definition trace {A} (m : M A) : list event := fst m.
Definition result {A} (m : M A) : outcome A := snd m.

(** ** [src/main.ts] *)

Record ValidationResult : Type := {
  valid : bool;
  file : string;
  error : option string
}.

(** The [ignore] list of [findJsonFiles]. *)
Definition ignorePatterns : list string :=
  ["**/node_modules/**"; "**/dist/**"; "**/lib/**"; "**/.git/**"].

(** [const ajv = new Ajv({ allErrors: true }); addFormats(ajv);] *)
Definition ajvOptions : AjvOptions :=
  {| allErrors := true; withFormats := true |}.

Definition newline : string := String (ascii_of_nat 10) "".

Section Main.

Variable h : Host.

(** [findJsonFiles(folder)] *)
Definition findJsonFiles (folder : string) : M (list string) :=
  let searchPath := path.joinPaths [cwd h; folder] in
  let options := {| fg_cwd := searchPath;
                    fg_absolute := true;
                    fg_ignore := ignorePatterns |} in
  files <- call (Glob "**/*.json" options) (fg h "**/*.json" options) ;;
  ret files.

(** [extractSchemaFromJson(content, filePath)]: a parse error is caught
    and ignored, so the function is total and has no effect. *)
Definition extractSchemaFromJson (content filePath : string)
  : option string :=
  match JSON_parse h content with
  | Ok (JObject members) =>
      match getProperty "$schema" members with
      | Some (JString schemaRef) =>
          if startsWith schemaRef "http://"
             || startsWith schemaRef "https://"
          then None
          else
            let dir := path.dirname filePath in
            Some (path.resolve (cwd h) [dir; schemaRef])
      | _ => None
      end
  | _ => None
  end.

(** [validateJsonSyntax(filePath)] *)
Definition validateJsonSyntax (filePath : string) : M ValidationResult :=
  try_catch
    (content <- call (FsRead filePath) (readFileSync h filePath) ;;
     _ <- lift (JSON_parse h content) ;;
     ret {| valid := true; file := filePath; error := None |})
    (fun error =>
       let errorMessage := errorMessage error in
       ret {| valid := false; file := filePath;
              error := Some errorMessage |}).

(** [loadSchema(schemaPath)] *)
Definition loadSchema (schemaPath : string) : M json :=
  try_catch
    (schemaContent <- call (FsRead schemaPath) (readFileSync h schemaPath) ;;
     lift (JSON_parse h schemaContent))
    (fun error =>
       throw (JsError "Error"
                ("Failed to load schema from " ++ schemaPath ++ ": "
                 ++ String_of_exn error))).

(** The line built for one violation:
    [`${err.instancePath} ${err.message}`]. *)
Definition errorLine (err : ErrorObject) : string :=
  instancePath err ++ " " ++ template (message err).

(** [validate.errors?.map(...).join(', ') || 'Unknown validation error'] *)
Definition errorText (errors : option (list ErrorObject)) : string :=
  match errors with
  | None => "Unknown validation error"
  | Some errs =>
      let joined := join ", " (map errorLine errs) in
      if truthy joined then joined else "Unknown validation error"
  end.

(** [validateJsonSchema(filePath, validate)] *)
Definition validateJsonSchema (filePath : string)
           (validate : ValidateFunction) : M ValidationResult :=
  try_catch
    (content <- call (FsRead filePath) (readFileSync h filePath) ;;
     data <- lift (JSON_parse h content) ;;
     verdict <- lift (validate data) ;;
     let '(valid, validate_errors) := verdict in
     if negb valid then
       let errors := errorText validate_errors in
       ret {| valid := false; file := filePath; error := Some errors |}
     else
       ret {| valid := true; file := filePath; error := None |})
    (fun error =>
       let errorMessage := errorMessage error in
       ret {| valid := false; file := filePath;
              error := Some errorMessage |}).

(** The schema preparation both places of [run] share:
    [loadSchema], [new Ajv], [addFormats], [ajv.compile]. *)
Definition compileSchemaAt (schemaPath : string) : M ValidateFunction :=
  schema <- loadSchema schemaPath ;;
  call (AjvCompile ajvOptions schema) (ajv_compile h ajvOptions schema).

(** [run], "Prepare schema validation if provided". *)
Definition prepareGlobal (schemaPath : string)
  : M (option ValidateFunction) :=
  if truthy schemaPath then
    emit (Info ("Using global schema: " ++ schemaPath)) ;;
    globalValidate <- compileSchemaAt schemaPath ;;
    ret (Some globalValidate)
  else ret None.

(** [run], "Check if file has its own schema reference": the validator
    the loop body settles on for [file]. *)
Definition fileValidateFor (globalValidate : option ValidateFunction)
           (file : string) : M (option ValidateFunction) :=
  let relativePath := path.relative (cwd h) (cwd h) file in
  match globalValidate with
  | Some validate => ret (Some validate)
  | None =>
      try_catch
        (content <- call (FsRead file) (readFileSync h file) ;;
         match extractSchemaFromJson content file with
         | Some fileSchemaPath =>
             if truthy fileSchemaPath then
               present <- call (FsExists fileSchemaPath)
                               (Ok (existsSync h fileSchemaPath)) ;;
               if (present : bool) then
                 emit (Info ("Using schema from $schema property for "
                             ++ relativePath ++ ": "
                             ++ path.relative (cwd h) (cwd h)
                                  fileSchemaPath)) ;;
                 fileValidate <- compileSchemaAt fileSchemaPath ;;
                 ret (Some fileValidate)
               else ret None
             else ret None
         | None => ret None
         end)
        (fun _ => ret None)
  end.

(** One iteration of the loop of [run]: the result pushed for [file]. *)
Definition validateFile (globalValidate : option ValidateFunction)
           (file : string) : M ValidationResult :=
  fileValidate <- fileValidateFor globalValidate file ;;
  match fileValidate with
  | Some validate => validateJsonSchema file validate
  | None => validateJsonSyntax file
  end.

(** [for (const file of jsonFiles) { ... results.push(...) }] *)
Fixpoint validateAll (globalValidate : option ValidateFunction)
         (jsonFiles : list string) : M (list ValidationResult) :=
  match jsonFiles with
  | [] => ret []
  | file :: rest =>
      r <- validateFile globalValidate file ;;
      results <- validateAll globalValidate rest ;;
      ret (r :: results)
  end.

(** [for (const result of invalidFiles) core.error(...)] *)
Fixpoint reportInvalid (invalidFiles : list ValidationResult) : M unit :=
  match invalidFiles with
  | [] => ret tt
  | result :: rest =>
      let relativePath := path.relative (cwd h) (cwd h) (file result) in
      emit (Error ("  - " ++ relativePath ++ ": "
                   ++ template (error result))) ;;
      reportInvalid rest
  end.

(** [run], from "Separate valid and invalid files" to the end of the
    [try] block. *)
Definition report (results : list ValidationResult) : M unit :=
  let validFiles := filter (fun r => valid r) results in
  let invalidFiles := filter (fun r => negb (valid r)) results in
  emit (Info (newline ++ "Validation Results:")) ;;
  emit (Info ("✓ Valid files: " ++ String_of_nat (length validFiles))) ;;
  (if Nat.ltb 0 (length invalidFiles) then
     emit (Error ("✗ Invalid files: "
                  ++ String_of_nat (length invalidFiles))) ;;
     reportInvalid invalidFiles
   else ret tt) ;;
  emit (SetOutput "valid-files" (length validFiles)) ;;
  emit (SetOutput "invalid-files" (length invalidFiles)) ;;
  if Nat.ltb 0 (length invalidFiles) then
    emit (SetFailed ("Found " ++ String_of_nat (length invalidFiles)
                     ++ " invalid JSON file(s)"))
  else
    emit (Info (newline ++ "✓ All JSON files are valid!")).

(** The body of the [try] block of [run]. *)
Definition runBody : M unit :=
  let folder := if truthy (getInput h "folder")
                then getInput h "folder" else "." in
  let schemaPath := getInput h "schema" in
  emit (Info ("Scanning for JSON files in: " ++ folder)) ;;
  jsonFiles <- findJsonFiles folder ;;
  if Nat.eqb (length jsonFiles) 0 then
    emit (Warning ("No JSON files found in " ++ folder)) ;;
    emit (SetOutput "valid-files" 0) ;;
    emit (SetOutput "invalid-files" 0)
  else
    emit (Info ("Found " ++ String_of_nat (length jsonFiles)
                ++ " JSON file(s)")) ;;
    globalValidate <- prepareGlobal schemaPath ;;
    results <- validateAll globalValidate jsonFiles ;;
    report results.

(** [run()] *)
Definition run : M unit :=
  try_catch runBody
    (fun error =>
       let errorMessage := errorMessage error in
       emit (SetFailed ("Action failed: " ++ errorMessage))).

End Main.

(** ** A reference semantics for the globs the action uses

    [fast-glob] is a dependency, not part of the repository.  The patterns
    the action hands to it use only [**], [*] and literal segments; this
    module gives those their usual meaning, on paths relative to the search
    directory: [**] stands for any number of segments, [*] for any run of
    characters inside one segment.  Hidden entries (a leading dot) are
    matched by a wildcard only when [dot] is set, as it is for [ignore]
    patterns. *)

Module FastGlob.

Inductive token : Type :=
| Globstar
| Segment (pat : string).

Definition tokens (pattern : string) : list token :=
  map (fun s => if (s =? "**") then Globstar else Segment s)
      (path.split pattern).

(** [*] inside one segment. *)
Fixpoint wildcard (pat name : list ascii) {struct pat} : bool :=
  match pat with
  | [] => match name with [] => true | _ => false end
  | c :: pat' =>
      if Ascii.eqb c "*"%char then
        (fix anyRun (name : list ascii) : bool :=
           wildcard pat' name
           || match name with
              | [] => false
              | _ :: name' => anyRun name'
              end) name
      else
        match name with
        | [] => false
        | d :: name' => Ascii.eqb c d && wildcard pat' name'
        end
  end.

Definition hidden (name : string) : bool := startsWith name ".".

Definition segmentMatch (dot : bool) (pat name : string) : bool :=
  (dot || negb (hidden name) || hidden pat)
  && wildcard (list_ascii_of_string pat) (list_ascii_of_string name).

Fixpoint matchTokens (dot : bool) (toks : list token) (segs : list string)
         {struct toks} : bool :=
  match toks with
  | [] => match segs with [] => true | _ => false end
  | Globstar :: toks' =>
      (fix skip (segs : list string) : bool :=
         matchTokens dot toks' segs
         || match segs with
            | [] => false
            | s :: segs' => (dot || negb (hidden s)) && skip segs'
            end) segs
  | Segment pat :: toks' =>
      match segs with
      | [] => false
      | s :: segs' => segmentMatch dot pat s && matchTokens dot toks' segs'
      end
  end.

Definition matches (dot : bool) (pattern rel : string) : bool :=
  matchTokens dot (tokens pattern) (path.split rel).

(** The entries kept: matched by the pattern, by no [ignore] pattern. *)
Definition keeps (pattern : string) (options : FgOptions) (rel : string)
  : bool :=
  matches false pattern rel
  && negb (existsb (fun ig => matches true ig rel) (fg_ignore options)).

(** An entry as [fast-glob] returns it: with [absolute] it is
    [path.resolve(cwd, entry)], which for the absolute [cwd] that
    [findJsonFiles] passes is [path.join(cwd, entry)]; a separator that ends
    [cwd] is not doubled. *)
Definition present (options : FgOptions) (rel : string) : string :=
  if fg_absolute options then path.joinPaths [fg_cwd options; rel] else rel.

(** [listing dir] is the files below [dir], as paths relative to it. *)
Definition glob (listing : string -> list string) (pattern : string)
           (options : FgOptions) : outcome (list string) :=
  Ok (map (present options)
          (filter (keeps pattern options) (listing (fg_cwd options)))).

End FastGlob.

(** ** Fixtures: small concrete hosts *)

Module Fixture.

Definition dq : string := String (ascii_of_nat 34) "".
Definition quoted (s : string) : string := dq ++ s ++ dq.

(** A disk: absolute file paths and their text. *)
Definition disk : Type := list (string * string).

(** Every fixture runs in this working directory; the file system
    resolves a relative path against it. *)
Definition workdir : string := "/work".

Definition read (d : disk) (p : string) : outcome string :=
  match find (fun entry => fst entry =? path.resolve workdir [p]) d with
  | Some entry => Ok (snd entry)
  | None =>
      Throw (JsError "Error"
               ("ENOENT: no such file or directory, open '" ++ p ++ "'"))
  end.

Definition exists_ (d : disk) (p : string) : bool :=
  existsb (fun entry => fst entry =? path.resolve workdir [p]) d.

(** [p] without the prefix [pre], when it has it. *)
Fixpoint stripPrefix (pre p : string) : option string :=
  match pre, p with
  | EmptyString, _ => Some p
  | String a pre', String b p' =>
      if Ascii.eqb a b then stripPrefix pre' p' else None
  | _, _ => None
  end.

(** The files below [dir], relative to it.  The directory is resolved
    first, so a separator at its end or the root itself make no
    difference. *)
Definition listing (d : disk) (dir : string) : list string :=
  let root := path.resolve workdir [dir] in
  let below := if (root =? "/") then "/" else root ++ "/" in
  flat_map (fun entry =>
              match stripPrefix below (fst entry) with
              | Some rel => [rel]
              | None => []
              end) d.

(** A fragment of [JSON.parse]: the texts of [table] parse to the values
    beside them, every other text is a syntax error. *)
Definition parse (table : list (string * json)) (text : string)
  : outcome json :=
  match find (fun entry => fst entry =? text) table with
  | Some entry => Ok (snd entry)
  | None => Throw (JsError "SyntaxError" "Unexpected token in JSON")
  end.

Definition stringsOf (j : json) : list string :=
  match j with
  | JArray items =>
      flat_map (fun i => match i with JString s => [s] | _ => [] end) items
  | _ => []
  end.

Definition lacks (data : json) (key : string) : bool :=
  match data with
  | JObject fields =>
      match getProperty key fields with Some _ => false | None => true end
  | _ => false
  end.

(** A fragment of Ajv: schemas whose only keyword is [required].  With
    [allErrors] every missing property is reported, without it the first
    one only. *)
Definition requiring (options : AjvOptions) (required : list string)
  : ValidateFunction :=
  fun data =>
    let found :=
      map (fun key =>
             {| instancePath := "";
                message := Some ("must have required property '"
                                 ++ key ++ "'") |})
          (filter (lacks data) required) in
    let reported := if allErrors options then found else firstn 1 found in
    match reported with
    | [] => Ok (true, None)
    | _ => Ok (false, Some reported)
    end.

Definition compile (options : AjvOptions) (schema : json)
  : outcome ValidateFunction :=
  match schema with
  | JObject members =>
      Ok (requiring options
            match getProperty "required" members with
            | Some r => stringsOf r
            | None => []
            end)
  | _ => Throw (JsError "Error" "schema must be object or boolean")
  end.

Definition inputs (table : list (string * string)) (name : string)
  : string :=
  match find (fun entry => fst entry =? name) table with
  | Some entry => snd entry
  | None => ""
  end.

(** The host of a run in [workdir] over disk [d]. *)
Definition host (ins : list (string * string)) (d : disk)
           (table : list (string * json)) : Host :=
  {| cwd := workdir;
     getInput := inputs ins;
     readFileSync := read d;
     existsSync := exists_ d;
     JSON_parse := parse table;
     fg := FastGlob.glob (listing d);
     ajv_compile := compile |}.

(** Texts and their parsed values. *)
Definition userSchemaText : string :=
  "{" ++ quoted "required" ++ ": [" ++ quoted "name" ++ ", "
      ++ quoted "email" ++ "]}".
Definition userSchema : json :=
  JObject [("required", JArray [JString "name"; JString "email"])].

Definition aliceText : string :=
  "{" ++ quoted "$schema" ++ ": " ++ quoted "./user.schema.json" ++ ", "
      ++ quoted "name" ++ ": " ++ quoted "Alice" ++ ", "
      ++ quoted "email" ++ ": " ++ quoted "alice@example.com" ++ "}".
Definition alice : json :=
  JObject [("$schema", JString "./user.schema.json");
           ("name", JString "Alice");
           ("email", JString "alice@example.com")].

Definition nobodyText : string :=
  "{" ++ quoted "$schema" ++ ": " ++ quoted "./user.schema.json" ++ "}".
Definition nobody : json :=
  JObject [("$schema", JString "./user.schema.json")].

Definition remoteText : string :=
  "{" ++ quoted "$schema" ++ ": "
      ++ quoted "http://json-schema.org/draft-07/schema#" ++ "}".
Definition remote : json :=
  JObject [("$schema", JString "http://json-schema.org/draft-07/schema#")].

Definition plainText : string :=
  "{" ++ quoted "name" ++ ": " ++ quoted "test" ++ "}".
Definition plain : json := JObject [("name", JString "test")].

Definition brokenText : string := "{ invalid json }".

Definition numberText : string := "42".

Definition texts : list (string * json) :=
  [(userSchemaText, userSchema); (aliceText, alice); (nobodyText, nobody);
   (remoteText, remote); (plainText, plain); (numberText, JNumber "42")].

(** Two documents that declare the same schema, which sits beside
    them; no global schema. *)
Definition sharedDisk : disk :=
  [("/work/data/alice.json", aliceText);
   ("/work/data/nobody.json", nobodyText);
   ("/work/data/user.schema.json", userSchemaText)].
Definition sharedHost : Host := host [] sharedDisk texts.

(** The same documents under a global schema. *)
Definition globalHost : Host :=
  host [("schema", "data/user.schema.json")] sharedDisk texts.


(** An [ignore] input that names [build], on a tree with a [build] and a
    [dist] directory. *)
Definition ignoreDisk : disk :=
  [("/work/ok.json", plainText);
   ("/work/build/b.json", plainText);
   ("/work/dist/d.json", plainText)].
Definition ignoreHost : Host :=
  host [("ignore", "**/build/**")] ignoreDisk texts.

(** A document whose [$schema] is a URL. *)
Definition remoteHost : Host :=
  host [] [("/work/remote.json", remoteText)] texts.

(** A document that declares a schema that is not on the disk. *)
Definition danglingHost : Host :=
  host [] [("/work/data/nobody.json", nobodyText)] texts.

(** A document whose declared schema is on the disk but is not JSON. *)
Definition garbledHost : Host :=
  host [] [("/work/data/nobody.json", nobodyText);
           ("/work/data/user.schema.json", brokenText)] texts.

(** The document of the path-resolution example. *)
Definition besideHost : Host :=
  host [] [("/a/b/doc.json", nobodyText)] texts.

End Fixture.

(** The directory names the [ignore] list of [findJsonFiles] stands for. *)
Definition excludedNames : list string :=
  ["node_modules"; "dist"; "lib"; ".git"].

(** ** Observations on a run *)

Definition isCompile (e : event) : bool :=
  match e with AjvCompile _ _ => true | _ => false end.

(** How many times [ajv.compile] was called. *)
Definition compilations (evs : list event) : nat :=
  length (filter isCompile evs).

Definition isSetFailed (e : event) : bool :=
  match e with SetFailed _ => true | _ => false end.

(** The process outcome: [core.setFailed] was called. *)
Definition failed (evs : list event) : bool := existsb isSetFailed evs.

(** Events that tell the user something went wrong. *)
Definition isAlarm (e : event) : bool :=
  match e with
  | Warning _ | Error _ | SetFailed _ => true
  | _ => false
  end.

(** The violations a validator left in [validate.errors]. *)
Definition violations (errors : option (list ErrorObject))
  : list ErrorObject :=
  match errors with
  | Some errs => errs
  | None => []
  end.

(** Ajv's contract for one call: the answer is [true] exactly when no
    violation was recorded. *)
Definition ajvVerdict (verdict : bool * option (list ErrorObject)) : Prop :=
  fst verdict = true <-> violations (snd verdict) = [].

Definition isVerdict (e : event) : bool :=
  match e with
  | SetOutput _ _ | SetFailed _ => true
  | _ => false
  end.

(** The outputs and the failure a run reported, in order. *)
Definition verdictEvents (evs : list event) : list event :=
  filter isVerdict evs.

Definition validCount (results : list ValidationResult) : nat :=
  length (filter (fun r => valid r) results).

Definition invalidCount (results : list ValidationResult) : nat :=
  length (filter (fun r => negb (valid r)) results).

(** [core.getInput('folder') || '.'] *)
Definition folderInput (h : Host) : string :=
  if truthy (getInput h "folder") then getInput h "folder" else ".".

(** Whether [loadSchema] returns at a path. *)
Definition loads (h : Host) (schemaPath : string) : bool :=
  match readFileSync h schemaPath with
  | Ok text =>
      match JSON_parse h text with
      | Ok _ => true
      | Throw _ => false
      end
  | Throw _ => false
  end.

(** Whether a document declares a local [$schema] that exists and loads. *)
Definition declaresLoadableSchema (h : Host) (file : string) : bool :=
  match readFileSync h file with
  | Ok content =>
      match extractSchemaFromJson h content file with
      | Some fileSchemaPath =>
          existsSync h fileSchemaPath && loads h fileSchemaPath
      | None => false
      end
  | Throw _ => false
  end.


(** The same host with one action input set to [value]. *)
Definition withInput (h : Host) (name value : string) : Host :=
  {| cwd := cwd h;
     getInput := fun n => if (n =? name) then value else getInput h n;
     readFileSync := readFileSync h;
     existsSync := existsSync h;
     JSON_parse := JSON_parse h;
     fg := fg h;
     ajv_compile := ajv_compile h |}.

(** The options [findJsonFiles] hands to [fast-glob] for a folder. *)
Definition searchOptions (h : Host) (folder : string) : FgOptions :=
  {| fg_cwd := path.joinPaths [cwd h; folder];
     fg_absolute := true;
     fg_ignore := ignorePatterns |}.

(** The two violations the fixture validator records for a document that
    has neither [name] nor [email]. *)
Definition nobodyViolations : list ErrorObject :=
  [{| instancePath := "";
      message := Some "must have required property 'name'" |};
   {| instancePath := "";
      message := Some "must have required property 'email'" |}].


(** Every compilation in a trace was made with the given options. *)
Definition compiledWith (options : AjvOptions) (evs : list event) : Prop :=
  forall (o : AjvOptions) (schema : json),
    In (AjvCompile o schema) evs -> o = options.

(** ** More observations and fixtures *)

(** The error [loadSchema] throws when [cause] stopped it at [schemaPath]. *)
Definition loadFailure (schemaPath : string) (cause : exn) : exn :=
  JsError "Error"
    ("Failed to load schema from " ++ schemaPath ++ ": "
     ++ String_of_exn cause).

Definition isGlob (e : event) : bool :=
  match e with Glob _ _ => true | _ => false end.

(** A run over an empty tree whose [schema] input names a missing file. *)
Definition emptyTreeHost : Host :=
  Fixture.host [("schema", "schemas/missing.json")] [] Fixture.texts.

(** The two documents of [Fixture.sharedDisk] under a global schema that is
    not on the disk. *)
Definition missingGlobalHost : Host :=
  Fixture.host [("schema", "schemas/missing.json")] Fixture.sharedDisk
    Fixture.texts.

(** The events of the validation loop and of schema preparation: log
    lines and calls on the file system and on Ajv. *)
Definition isLoopEvent (e : event) : bool :=
  match e with
  | Info _ | FsRead _ | FsExists _ | AjvCompile _ _ => true
  | _ => false
  end.

(** The events of the report. *)
Definition isReportEvent (e : event) : bool :=
  match e with
  | Info _ | Error _ | SetOutput _ _ | SetFailed _ => true
  | _ => false
  end.

(** The invariant of a result: an error text exactly when invalid. *)
Definition wellFormed (r : ValidationResult) : Prop :=
  valid r = true <-> error r = None.

Definition isError (e : event) : bool :=
  match e with Error _ => true | _ => false end.

(** The line [run] logs for an invalid result. *)
Definition invalidLine (h : Host) (r : ValidationResult) : event :=
  Error ("  - " ++ path.relative (cwd h) (cwd h) (file r) ++ ": "
         ++ template (error r)).

(** A document that names its schema by an absolute path. *)
Definition rootedText : string :=
  "{" ++ Fixture.quoted "$schema" ++ ": "
      ++ Fixture.quoted "/schemas/user.schema.json" ++ "}".
Definition rooted : json :=
  JObject [("$schema", JString "/schemas/user.schema.json")].
Definition rootedHost : Host :=
  Fixture.host [] [("/work/deep/down/doc.json", rootedText)]
    ((rootedText, rooted) :: Fixture.texts).

(** ** The earlier entry point

    The repository also holds the earlier form of the action, whose
    [findJsonFiles], [validateJsonSyntax], [loadSchema] and
    [validateJsonSchema] are those above and whose [run] knows the global
    schema only: it never looks for [$schema] in a document. *)

Module Legacy.

(** [run], "Prepare schema validation if provided". *)
Definition prepare (h : Host) (schemaPath : string)
  : M (option ValidateFunction) :=
  if truthy schemaPath then
    emit (Info ("Using schema: " ++ schemaPath)) ;;
    validate <- compileSchemaAt h schemaPath ;;
    ret (Some validate)
  else ret None.

(** [for (const file of jsonFiles) { ... results.push(...) }] *)
Fixpoint validateAll (h : Host) (validate : option ValidateFunction)
         (jsonFiles : list string) : M (list ValidationResult) :=
  match jsonFiles with
  | [] => ret []
  | file :: rest =>
      let relativePath := path.relative (cwd h) (cwd h) file in
      r <- match validate with
           | Some validate => validateJsonSchema h file validate
           | None => validateJsonSyntax h file
           end ;;
      results <- validateAll h validate rest ;;
      ret (r :: results)
  end.

(** The body of the [try] block of [run]. *)
Definition runBody (h : Host) : M unit :=
  let folder := if truthy (getInput h "folder")
                then getInput h "folder" else "." in
  let schemaPath := getInput h "schema" in
  emit (Info ("Scanning for JSON files in: " ++ folder)) ;;
  jsonFiles <- findJsonFiles h folder ;;
  if Nat.eqb (length jsonFiles) 0 then
    emit (Warning ("No JSON files found in " ++ folder)) ;;
    emit (SetOutput "valid-files" 0) ;;
    emit (SetOutput "invalid-files" 0)
  else
    emit (Info ("Found " ++ String_of_nat (length jsonFiles)
                ++ " JSON file(s)")) ;;
    validate <- prepare h schemaPath ;;
    results <- validateAll h validate jsonFiles ;;
    report h results.

(** [run()] *)
Definition run (h : Host) : M unit :=
  try_catch (runBody h)
    (fun error =>
       let errorMessage := errorMessage error in
       emit (SetFailed ("Action failed: " ++ errorMessage))).

End Legacy.

(** A tree in which no document declares a schema. *)
Definition plainHost : Host :=
  Fixture.host [] [("/work/a.json", Fixture.plainText);
                   ("/work/b.json", Fixture.brokenText)] Fixture.texts.


(** ** Node's decoding of file content

    [fs.readFileSync(path, 'utf-8')] reads the bytes of the file and decodes
    them as UTF-8.  The decoding never fails: a byte that cannot continue or
    start a well-formed sequence is replaced by U+FFFD and decoding goes on.
    Text is kept here in its UTF-8 form, so a well-formed sequence is copied
    and an ill-formed one becomes the three bytes of U+FFFD. *)

Module Utf8.

(** The decoder is idle, or inside a sequence: the bytes seen so far (last
    one first), how many are still needed, and the range the next one must
    lie in. *)
Inductive state : Type :=
| Idle
| Pending (seen : list ascii) (needed lower upper : nat).

Definition replacement : list ascii :=
  [ascii_of_nat 239; ascii_of_nat 191; ascii_of_nat 189].

(** A byte met while idle. *)
Definition start (c : ascii) : list ascii * state :=
  let b := nat_of_ascii c in
  if Nat.leb b 127 then ([c], Idle)
  else if Nat.leb 194 b && Nat.leb b 223 then ([], Pending [c] 1 128 191)
  else if Nat.leb 224 b && Nat.leb b 239 then
    ([], Pending [c] 2 (if Nat.eqb b 224 then 160 else 128)
                       (if Nat.eqb b 237 then 159 else 191))
  else if Nat.leb 240 b && Nat.leb b 244 then
    ([], Pending [c] 3 (if Nat.eqb b 240 then 144 else 128)
                       (if Nat.eqb b 244 then 143 else 191))
  else (replacement, Idle).

(** One byte: what is written out, and the state after it.  A byte that
    cannot continue the sequence ends it with a replacement and is then
    looked at afresh. *)
Definition step (st : state) (c : ascii) : list ascii * state :=
  match st with
  | Idle => start c
  | Pending seen needed lower upper =>
      let b := nat_of_ascii c in
      if Nat.leb lower b && Nat.leb b upper then
        match needed with
        | 1 => (rev (c :: seen), Idle)
        | _ => ([], Pending (c :: seen) (needed - 1) 128 191)
        end
      else
        let '(out, st') := start c in ((replacement ++ out)%list, st')
  end.

Fixpoint decodeFrom (st : state) (bytes : list ascii) : list ascii :=
  match bytes with
  | [] => match st with
          | Idle => []
          | Pending _ _ _ _ => replacement
          end
  | c :: rest =>
      let '(out, st') := step st c in (out ++ decodeFrom st' rest)%list
  end.

(** [buffer.toString('utf-8')] *)
Definition decode (bytes : string) : string :=
  string_of_list_ascii (decodeFrom Idle (list_ascii_of_string bytes)).

(** The bytes are well-formed UTF-8: decoding replaces nothing. *)
Definition wellFormed (bytes : string) : bool := (decode bytes =? bytes).

End Utf8.

(** [fs.readFileSync(path, 'utf-8')] over a file system that gives the bytes
    of a file or throws: the only exceptions are those of the read. *)
Definition readUtf8 (readBytes : string -> outcome string) (p : string)
  : outcome string :=
  match readBytes p with
  | Ok bytes => Ok (Utf8.decode bytes)
  | Throw e => Throw e
  end.

(** A file of three bytes, a quote, [0xFF] and a quote: not UTF-8. *)
Definition undecodableBytes : string :=
  String (ascii_of_nat 34) (String (ascii_of_nat 255)
    (String (ascii_of_nat 34) "")).

Definition undecodableDisk : Fixture.disk :=
  [("/work/bad.json", undecodableBytes)].

(** The host of a run over [undecodableDisk].  The decoded text is a JSON
    string that holds U+FFFD, which [JSON.parse] accepts. *)
Definition undecodableHost : Host :=
  {| cwd := Fixture.workdir;
     getInput := Fixture.inputs [];
     readFileSync := readUtf8 (Fixture.read undecodableDisk);
     existsSync := Fixture.exists_ undecodableDisk;
     JSON_parse :=
       Fixture.parse
         [(Utf8.decode undecodableBytes,
           JString (string_of_list_ascii Utf8.replacement))];
     fg := FastGlob.glob (Fixture.listing undecodableDisk);
     ajv_compile := Fixture.compile |}.

(** ** Ajv's contract *)


(** What a synchronous validator answers when the data has the violations
    [found]: with [allErrors] it records them all, without it the first one
    only; it answers [true], with [errors] null, exactly when it records
    none. *)
Definition ajvReport (options : AjvOptions) (found : list ErrorObject)
  : bool * option (list ErrorObject) :=
  match (if allErrors options then found else firstn 1 found) with
  | [] => (true, None)
  | reported => (false, Some reported)
  end.







(** ** The contract of [fast-glob] on [ignore] *)

(** For one call: every entry returned lies, relative to the search
    directory, at a path that no [ignore] pattern of the call matches. *)
Definition honoursIgnore (h : Host) (pattern : string) (options : FgOptions)
  : Prop :=
  forall files : list string,
    fg h pattern options = Ok files ->
    forall p : string,
      In p files ->
      existsb (fun ig =>
                 FastGlob.matches true ig
                   (path.relative (cwd h) (fg_cwd options) p))
              (fg_ignore options) = false.

Unset Implicit Arguments.

(** ** Checks of the library models on concrete inputs *)

Example dirname_doc : path.dirname "/a/b/doc.json" = "/a/b".
Proof. reflexivity. Qed.

Example dirname_root_file : path.dirname "/doc.json" = "/".
Proof. reflexivity. Qed.

Example dirname_bare : path.dirname "doc.json" = ".".
Proof. reflexivity. Qed.

Example resolve_sibling :
  path.resolve "/work" ["/a/b"; "./user.schema.json"] = "/a/b/user.schema.json".
Proof. reflexivity. Qed.

Example resolve_parent :
  path.resolve "/work" ["/a/b"; "../schema/product.schema.json"]
  = "/a/schema/product.schema.json".
Proof. reflexivity. Qed.

Example resolve_relative_dir :
  path.resolve "/work" ["."; "s.json"] = "/work/s.json".
Proof. reflexivity. Qed.

Example relative_below : path.relative "/work" "/work" "/work/data/a.json" = "data/a.json".
Proof. reflexivity. Qed.

Example join_folder : path.joinPaths ["/work"; "."] = "/work".
Proof. reflexivity. Qed.

Example glob_json_nested : FastGlob.matches false "**/*.json" "a/b/c.json" = true.
Proof. reflexivity. Qed.

Example glob_json_top : FastGlob.matches false "**/*.json" "c.json" = true.
Proof. reflexivity. Qed.

Example glob_not_json : FastGlob.matches false "**/*.json" "a/c.yaml" = false.
Proof. reflexivity. Qed.

Example glob_ignore_dist :
  FastGlob.matches true "**/dist/**" "pkg/dist/out/c.json" = true.
Proof. reflexivity. Qed.

Example glob_ignore_other :
  FastGlob.matches true "**/dist/**" "pkg/distribution/c.json" = false.
Proof. reflexivity. Qed.

(** ** Reasoning about computations *)

Lemma trace_bind {A B} (m : M A) (k : A -> M B) :
  trace (bind m k)
  = (trace m ++ match result m with
                | Ok a => trace (k a)
                | Throw _ => []
                end)%list.
Proof.
  destruct m as [evs [a | e]]; simpl.
  - destruct (k a); reflexivity.
  - now rewrite app_nil_r.
Qed.

Lemma result_bind {A B} (m : M A) (k : A -> M B) :
  result (bind m k)
  = match result m with
    | Ok a => result (k a)
    | Throw e => Throw e
    end.
Proof.
  destruct m as [evs [a | e]]; simpl; [destruct (k a) |]; reflexivity.
Qed.

Lemma trace_try_catch {A} (m : M A) (handler : exn -> M A) :
  trace (try_catch m handler)
  = (trace m ++ match result m with
                | Ok _ => []
                | Throw e => trace (handler e)
                end)%list.
Proof.
  destruct m as [evs [a | e]]; simpl.
  - now rewrite app_nil_r.
  - destruct (handler e); reflexivity.
Qed.

Lemma result_try_catch {A} (m : M A) (handler : exn -> M A) :
  result (try_catch m handler)
  = match result m with
    | Ok a => Ok a
    | Throw e => result (handler e)
    end.
Proof.
  destruct m as [evs [a | e]]; simpl; [| destruct (handler e)]; reflexivity.
Qed.

(** ** The syntax check *)

Example validateJsonSyntax_missing_file :
  validateJsonSyntax (Fixture.host [] [] Fixture.texts) "/work/gone.json"
  = ([FsRead "/work/gone.json"],
     Ok {| valid := false; file := "/work/gone.json";
           error := Some "ENOENT: no such file or directory, open '/work/gone.json'" |}).
Proof. reflexivity. Qed.

Example validateJsonSyntax_broken_file :
  validateJsonSyntax
    (Fixture.host [] [("/work/b.json", Fixture.brokenText)] Fixture.texts)
    "/work/b.json"
  = ([FsRead "/work/b.json"],
     Ok {| valid := false; file := "/work/b.json";
           error := Some "Unexpected token in JSON" |}).
Proof. reflexivity. Qed.

Example validateJsonSyntax_good_file :
  validateJsonSyntax
    (Fixture.host [] [("/work/p.json", Fixture.plainText)] Fixture.texts)
    "/work/p.json"
  = ([FsRead "/work/p.json"],
     Ok {| valid := true; file := "/work/p.json"; error := None |}).
Proof. reflexivity. Qed.

(** ** Validation against a schema *)





(** ** Facts about [path] *)

Lemma resolveLoop_reaches_cwd (cwd : string) (before : list string)
      (acc : string) :
  path.isAbsolute cwd = true ->
  snd (path.resolveLoop (before ++ [cwd]) acc) = true.
Proof.
  intros Habs. revert acc.
  induction before as [| p before IH]; intros acc; simpl.
  - destruct cwd as [| c cwd']; [discriminate |].
    simpl in *. now rewrite Habs.
  - destruct (p =? ""); [apply IH |].
    destruct (path.isAbsolute p); [reflexivity | apply IH].
Qed.

Lemma resolve_isAbsolute (cwd : string) (args : list string) :
  path.isAbsolute cwd = true ->
  path.isAbsolute (path.resolve cwd args) = true.
Proof.
  intros Habs. unfold path.resolve.
  pose proof (resolveLoop_reaches_cwd cwd (rev args) "" Habs) as Hloop.
  change (rev (cwd :: args)) with (rev args ++ [cwd])%list.
  destruct (path.resolveLoop (rev args ++ [cwd]) "") as [resolvedPath abs].
  simpl in Hloop. subst abs. reflexivity.
Qed.

Lemma resolve_truthy (cwd : string) (args : list string) :
  truthy (path.resolve cwd args) = true.
Proof.
  unfold path.resolve.
  destruct (path.resolveLoop (rev (cwd :: args)) "") as [resolvedPath abs].
  destruct abs; [reflexivity |].
  destruct (path.normalizeString resolvedPath (negb false) =? "") eqn:Hbody;
    [reflexivity |].
  unfold truthy. now rewrite Hbody.
Qed.

Lemma dirname_isAbsolute (p : string) :
  path.isAbsolute p = true -> path.isAbsolute (path.dirname p) = true.
Proof.
  destruct p as [| c0 rest]; [discriminate |].
  simpl. intros Hroot. unfold path.dirname. simpl.
  rewrite Hroot.
  destruct (path.dropWhile _ (path.dropWhile _ _)) as [| c before];
    [reflexivity |].
  destruct (true && Nat.eqb (length (c :: before)) 1); [reflexivity |].
  simpl. exact Hroot.
Qed.

Lemma resolve_from_absolute_dir (cwd other dir ref : string) :
  path.isAbsolute dir = true ->
  path.resolve other [dir; ref] = path.resolve cwd [dir; ref].
Proof.
  intros Hdir. unfold path.resolve. simpl.
  assert (Hne : (dir =? "") = false)
    by (destruct dir; [discriminate | reflexivity]).
  destruct (ref =? "").
  - simpl. now rewrite Hne, Hdir.
  - destruct (path.isAbsolute ref); [reflexivity |].
    simpl. now rewrite Hne, Hdir.
Qed.

(** ** Schema resolution *)

Lemma extractSchemaFromJson_truthy (h : Host) (content filePath p : string) :
  extractSchemaFromJson h content filePath = Some p -> truthy p = true.
Proof.
  unfold extractSchemaFromJson.
  destruct (JSON_parse h content) as [[| | | | | members] |]; try discriminate.
  destruct (getProperty "$schema" members) as [[| | | schemaRef | |] |];
    try discriminate.
  destruct (_ || _); [discriminate |].
  intros [= <-]. apply resolve_truthy.
Qed.

(** C5. When the parsed root is an object whose [$schema] is a string that
    starts with neither [http://] nor [https://], [extractSchemaFromJson]
    returns [path.resolve] of that string against the directory of the
    document.  The path is absolute, and for a document given by an absolute
    path the working directory plays no part in it. *)
Theorem extractSchemaFromJson_resolves_beside_document
        (h : Host) (content filePath : string)
        (members : list (string * json)) (schemaRef : string) :
  JSON_parse h content = Ok (JObject members) ->
  getProperty "$schema" members = Some (JString schemaRef) ->
  startsWith schemaRef "http://" = false ->
  startsWith schemaRef "https://" = false ->
  path.isAbsolute (cwd h) = true ->
  extractSchemaFromJson h content filePath
  = Some (path.resolve (cwd h) [path.dirname filePath; schemaRef])
  /\ path.isAbsolute
       (path.resolve (cwd h) [path.dirname filePath; schemaRef]) = true
  /\ (path.isAbsolute filePath = true ->
      forall other : string,
        path.resolve other [path.dirname filePath; schemaRef]
        = path.resolve (cwd h) [path.dirname filePath; schemaRef]).
Proof.
  intros Hparse Hprop Hhttp Hhttps Hcwd.
  split; [| split].
  - unfold extractSchemaFromJson.
    now rewrite Hparse, Hprop, Hhttp, Hhttps.
  - now apply resolve_isAbsolute.
  - intros Hfile other.
    apply resolve_from_absolute_dir, dirname_isAbsolute, Hfile.
Qed.

Lemma validateJsonSyntax_returns (h : Host) (filePath : string) :
  exists r : ValidationResult,
    validateJsonSyntax h filePath = ([FsRead filePath], Ok r).
Proof.
  unfold validateJsonSyntax, call, lift, bind, try_catch, ret.
  destruct (readFileSync h filePath) as [content | e]; simpl.
  - destruct (JSON_parse h content); simpl; eexists; reflexivity.
  - eexists; reflexivity.
Qed.

Lemma validateJsonSchema_returns (h : Host) (filePath : string)
      (validate : ValidateFunction) :
  exists r : ValidationResult,
    validateJsonSchema h filePath validate = ([FsRead filePath], Ok r).
Proof.
  unfold validateJsonSchema, call, lift, bind, try_catch, ret.
  destruct (readFileSync h filePath) as [content | e]; simpl;
    [| eexists; reflexivity].
  destruct (JSON_parse h content) as [data | e]; simpl;
    [| eexists; reflexivity].
  destruct (validate data) as [[ok errors] | e]; simpl;
    [| eexists; reflexivity].
  destruct ok; simpl; eexists; reflexivity.
Qed.

(** A document that declares no usable [$schema] gets the syntax check. *)
Lemma undeclared_schema_is_syntax_only (h : Host) (file content : string) :
  readFileSync h file = Ok content ->
  extractSchemaFromJson h content file = None ->
  exists r : ValidationResult,
    validateJsonSyntax h file = ([FsRead file], Ok r)
    /\ validateFile h None file = ([FsRead file; FsRead file], Ok r).
Proof.
  intros Hread Hnone.
  destruct (validateJsonSyntax_returns h file) as [r Hr].
  exists r. split; [exact Hr |].
  unfold validateFile, fileValidateFor, call, bind, try_catch, ret.
  rewrite Hread, Hnone. simpl. now rewrite Hr.
Qed.

(** C6. When the parsed root is an object whose [$schema] is a string that
    starts with [http://] or [https://], [extractSchemaFromJson] returns no
    schema, and the loop of a run without a global schema then settles on no
    validator after reading the document alone: no existence test, no
    schema load, no exception.  The result pushed for the document is that
    of [validateJsonSyntax]. *)
Theorem extractSchemaFromJson_remote_is_none
        (h : Host) (content filePath : string)
        (members : list (string * json)) (schemaRef : string) :
  JSON_parse h content = Ok (JObject members) ->
  getProperty "$schema" members = Some (JString schemaRef) ->
  startsWith schemaRef "http://" || startsWith schemaRef "https://" = true ->
  extractSchemaFromJson h content filePath = None
  /\ (readFileSync h filePath = Ok content ->
      fileValidateFor h None filePath = ([FsRead filePath], Ok None)
      /\ exists r : ValidationResult,
           validateJsonSyntax h filePath = ([FsRead filePath], Ok r)
           /\ validateFile h None filePath
              = ([FsRead filePath; FsRead filePath], Ok r)).
Proof.
  intros Hparse Hprop Hurl.
  assert (Hnone : extractSchemaFromJson h content filePath = None).
  { unfold extractSchemaFromJson. now rewrite Hparse, Hprop, Hurl. }
  split; [exact Hnone |].
  intros Hread. split.
  - unfold fileValidateFor, call, bind, try_catch, ret.
    now rewrite Hread, Hnone.
  - exact (undeclared_schema_is_syntax_only h filePath content Hread Hnone).
Qed.

(** C9. Without a global schema, a document that declares a local
    [$schema] whose resolved path does not exist is handled without any
    exception and without loading anything: the loop reads the document,
    tests the path for existence, and pushes exactly the result of
    [validateJsonSyntax]. *)
Theorem missing_local_schema_is_syntax_only
        (h : Host) (file content p : string) :
  readFileSync h file = Ok content ->
  extractSchemaFromJson h content file = Some p ->
  existsSync h p = false ->
  fileValidateFor h None file = ([FsRead file; FsExists p], Ok None)
  /\ exists r : ValidationResult,
       validateJsonSyntax h file = ([FsRead file], Ok r)
       /\ validateFile h None file
          = ([FsRead file; FsExists p; FsRead file], Ok r).
Proof.
  intros Hread Hsome Hgone.
  pose proof (extractSchemaFromJson_truthy h content file p Hsome) as Htruthy.
  assert (Hstep : fileValidateFor h None file
                  = ([FsRead file; FsExists p], Ok None)).
  { unfold fileValidateFor, call, bind, try_catch, ret.
    now rewrite Hread, Hsome, Htruthy, Hgone. }
  split; [exact Hstep |].
  destruct (validateJsonSyntax_returns h file) as [r Hr].
  exists r. split; [exact Hr |].
  unfold validateFile. rewrite Hstep. unfold bind. now rewrite Hr.
Qed.

(** What [compileSchemaAt] does when the schema cannot be used. *)
Lemma compileSchemaAt_unusable (h : Host) (p : string) :
  (exists e, readFileSync h p = Throw e)
  \/ (exists text e,
        readFileSync h p = Ok text /\ JSON_parse h text = Throw e)
  \/ (exists text schema e,
        readFileSync h p = Ok text /\ JSON_parse h text = Ok schema
        /\ ajv_compile h ajvOptions schema = Throw e) ->
  exists evs e,
    compileSchemaAt h p = (evs, Throw e)
    /\ existsb isAlarm evs = false.
Proof.
  unfold compileSchemaAt, loadSchema, call, lift, bind, try_catch, throw.
  intros [[e Hread] | [(text & e & Hread & Hparse)
                      | (text & schema & e & Hread & Hparse & Hcomp)]].
  - rewrite Hread. simpl. do 2 eexists. split; reflexivity.
  - rewrite Hread, Hparse. simpl. do 2 eexists. split; reflexivity.
  - rewrite Hread, Hparse, Hcomp. simpl. do 2 eexists. split; reflexivity.
Qed.

(** C10. Without a global schema, a document whose declared local
    [$schema] exists but cannot be read, is not JSON or does not compile is
    handled without any exception reaching the loop: the step settles on no
    validator, raises no warning, error or failure, and the result pushed is
    exactly that of [validateJsonSyntax], as for a document that declares no
    schema. *)
Theorem unusable_local_schema_is_syntax_only
        (h : Host) (file content p : string) :
  readFileSync h file = Ok content ->
  extractSchemaFromJson h content file = Some p ->
  existsSync h p = true ->
  ((exists e, readFileSync h p = Throw e)
   \/ (exists text e,
         readFileSync h p = Ok text /\ JSON_parse h text = Throw e)
   \/ (exists text schema e,
         readFileSync h p = Ok text /\ JSON_parse h text = Ok schema
         /\ ajv_compile h ajvOptions schema = Throw e)) ->
  result (fileValidateFor h None file) = Ok None
  /\ existsb isAlarm (trace (validateFile h None file)) = false
  /\ exists r : ValidationResult,
       validateJsonSyntax h file = ([FsRead file], Ok r)
       /\ result (validateFile h None file) = Ok r.
Proof.
  intros Hread Hsome Hthere Hbad.
  pose proof (extractSchemaFromJson_truthy h content file p Hsome) as Htruthy.
  destruct (compileSchemaAt_unusable h p Hbad) as (evs & e & Hcomp & Hquiet).
  destruct (validateJsonSyntax_returns h file) as [r Hr].
  assert (Hstep : fileValidateFor h None file
                  = (FsRead file :: FsExists p
                     :: Info ("Using schema from $schema property for "
                              ++ path.relative (cwd h) (cwd h) file ++ ": "
                              ++ path.relative (cwd h) (cwd h) p)
                     :: (evs ++ [])%list, Ok None)).
  { unfold fileValidateFor, call, bind, try_catch, ret, emit.
    rewrite Hread, Hsome, Htruthy, Hthere, Hcomp. reflexivity. }
  split; [now rewrite Hstep |].
  unfold validateFile. rewrite Hstep. unfold bind. rewrite Hr.
  split.
  - simpl. rewrite !app_nil_r. rewrite existsb_app, Hquiet. reflexivity.
  - exists r. split; reflexivity.
Qed.

(** ** The trace of a run, piece by piece *)

Lemma filter_trace_bind {A B} (f : event -> bool) (m : M A) (k : A -> M B) :
  filter f (trace (bind m k))
  = (filter f (trace m)
     ++ match result m with
        | Ok a => filter f (trace (k a))
        | Throw _ => []
        end)%list.
Proof.
  rewrite trace_bind, filter_app. now destruct (result m).
Qed.

Lemma filter_trace_try_catch {A} (f : event -> bool) (m : M A)
      (handler : exn -> M A) :
  filter f (trace (try_catch m handler))
  = (filter f (trace m)
     ++ match result m with
        | Ok _ => []
        | Throw e => filter f (trace (handler e))
        end)%list.
Proof.
  rewrite trace_try_catch, filter_app. now destruct (result m).
Qed.

Lemma compileSchemaAt_shape (h : Host) (p : string) :
  verdictEvents (trace (compileSchemaAt h p)) = []
  /\ compilations (trace (compileSchemaAt h p))
     = (if loads h p then 1 else 0).
Proof.
  unfold compileSchemaAt, loadSchema, loads, call, lift, bind, try_catch,
    throw, compilations, verdictEvents.
  destruct (readFileSync h p) as [text | e]; simpl; [| now split].
  destruct (JSON_parse h text) as [schema | e]; simpl; [| now split].
  destruct (ajv_compile h ajvOptions schema); simpl; now split.
Qed.

Lemma fileValidateFor_shape (h : Host) (file : string) :
  exists evs g,
    fileValidateFor h None file = (evs, Ok g)
    /\ verdictEvents evs = []
    /\ compilations evs = (if declaresLoadableSchema h file then 1 else 0).
Proof.
  unfold fileValidateFor, declaresLoadableSchema.
  unfold call at 1. unfold bind at 1.
  destruct (readFileSync h file) as [content | e]; simpl;
    [| do 2 eexists; split; [reflexivity | now split]].
  destruct (extractSchemaFromJson h content file) as [p |] eqn:Hextract;
    [| simpl; do 2 eexists; split; [reflexivity | now split]].
  rewrite (extractSchemaFromJson_truthy h content file p Hextract).
  unfold call, bind, emit, ret.
  destruct (existsSync h p); simpl;
    [| do 2 eexists; split; [reflexivity | now split]].
  destruct (compileSchemaAt_shape h p) as [Hquiet Hcount].
  destruct (compileSchemaAt h p) as [evs [validate | e]]; simpl in *;
    do 2 eexists; (split; [reflexivity |]);
    unfold verdictEvents, compilations in *; simpl;
    rewrite ?app_nil_r, ?filter_app; simpl; rewrite ?app_nil_r;
    now split.
Qed.

Lemma validateFile_shape (h : Host) (g : option ValidateFunction)
      (file : string) :
  exists evs r,
    validateFile h g file = (evs, Ok r)
    /\ verdictEvents evs = []
    /\ compilations evs
       = match g with
         | Some _ => 0
         | None => if declaresLoadableSchema h file then 1 else 0
         end.
Proof.
  unfold validateFile.
  destruct g as [validate |].
  - destruct (validateJsonSchema_returns h file validate) as [r Hr].
    unfold fileValidateFor, bind, ret. rewrite Hr.
    do 2 eexists; split; [reflexivity | now split].
  - destruct (fileValidateFor_shape h file) as (evs & g & Hstep & Hq & Hc).
    rewrite Hstep. unfold bind.
    assert (Hcheck : exists r, (match g with
                                | Some validate => validateJsonSchema h file validate
                                | None => validateJsonSyntax h file
                                end) = ([FsRead file], Ok r)).
    { destruct g; [apply validateJsonSchema_returns
                  | apply validateJsonSyntax_returns]. }
    destruct Hcheck as [r ->].
    do 2 eexists; split; [reflexivity |].
    unfold verdictEvents, compilations in *.
    rewrite !filter_app, Hq, length_app, Hc. simpl. split; [reflexivity | lia].
Qed.

Lemma validateAll_shape (h : Host) (g : option ValidateFunction)
      (jsonFiles : list string) :
  exists evs results,
    validateAll h g jsonFiles = (evs, Ok results)
    /\ length results = length jsonFiles
    /\ verdictEvents evs = []
    /\ compilations evs
       = match g with
         | Some _ => 0
         | None => length (filter (declaresLoadableSchema h) jsonFiles)
         end.
Proof.
  induction jsonFiles as [| file rest IH]; simpl.
  - exists [], []. repeat split; now destruct g.
  - destruct (validateFile_shape h g file) as (evs1 & r & H1 & Hq1 & Hc1).
    destruct IH as (evs2 & results & H2 & Hlen & Hq2 & Hc2).
    rewrite H1, H2. unfold bind, ret.
    do 2 eexists; split; [reflexivity |].
    unfold verdictEvents, compilations in *.
    rewrite !filter_app, !length_app, Hq1, Hq2, Hc1, Hc2, !app_nil_r.
    simpl. rewrite Hlen. repeat split.
    destruct g; [reflexivity |].
    destruct (declaresLoadableSchema h file); simpl; lia.
Qed.

Lemma reportInvalid_shape (h : Host) (invalidFiles : list ValidationResult) :
  result (reportInvalid h invalidFiles) = Ok tt
  /\ verdictEvents (trace (reportInvalid h invalidFiles)) = []
  /\ compilations (trace (reportInvalid h invalidFiles)) = 0.
Proof.
  induction invalidFiles as [| r rest (Hres & Hq & Hc)].
  - now repeat split.
  - cbn [reportInvalid]. unfold verdictEvents, compilations in *.
    rewrite result_bind, !filter_trace_bind. cbn [emit result snd trace fst].
    rewrite Hres, Hq. simpl. now repeat split.
Qed.

Lemma report_shape (h : Host) (results : list ValidationResult) :
  verdictEvents (trace (report h results))
  = (SetOutput "valid-files" (validCount results)
     :: SetOutput "invalid-files" (invalidCount results)
     :: if Nat.ltb 0 (invalidCount results)
        then [SetFailed ("Found " ++ String_of_nat (invalidCount results)
                         ++ " invalid JSON file(s)")]
        else [])
  /\ compilations (trace (report h results)) = 0
  /\ result (report h results) = Ok tt.
Proof.
  unfold report, verdictEvents, compilations, validCount, invalidCount.
  set (validFiles := filter (fun r => valid r) results).
  set (invalidFiles := filter (fun r => negb (valid r)) results).
  destruct (reportInvalid_shape h invalidFiles) as (Hres & Hq & Hc).
  unfold verdictEvents, compilations in *.
  apply length_zero_iff_nil in Hc.
  destruct (Nat.ltb 0 (length invalidFiles));
    repeat (rewrite ?result_bind, ?filter_trace_bind, ?Hres, ?Hq, ?Hc;
            cbn [emit ret result snd trace fst filter isVerdict isCompile
                 app length]);
    now repeat split.
Qed.

Lemma prepareGlobal_shape (h : Host) (schemaPath : string) :
  verdictEvents (trace (prepareGlobal h schemaPath)) = []
  /\ compilations (trace (prepareGlobal h schemaPath))
     = (if truthy schemaPath && loads h schemaPath then 1 else 0)
  /\ match result (prepareGlobal h schemaPath) with
     | Ok g =>
         if truthy schemaPath
         then exists validate,
                g = Some validate
                /\ result (compileSchemaAt h schemaPath) = Ok validate
                /\ loads h schemaPath = true
         else g = None
     | Throw e =>
         truthy schemaPath = true
         /\ result (compileSchemaAt h schemaPath) = Throw e
     end.
Proof.
  unfold prepareGlobal.
  destruct (truthy schemaPath); [| now repeat split].
  destruct (compileSchemaAt_shape h schemaPath) as [Hq Hc].
  unfold verdictEvents, compilations in *.
  repeat (rewrite ?filter_trace_bind, ?result_bind, ?Hq;
          cbn [emit ret result snd trace fst filter isVerdict isCompile app
               length andb]).
  destruct (result (compileSchemaAt h schemaPath)) as [validate | e] eqn:Hres;
    cbn [ret result snd trace fst filter app]; rewrite ?app_nil_r.
  - repeat split; [exact Hc |].
    exists validate. repeat split.
    revert Hres. clear.
    unfold compileSchemaAt, loadSchema, loads, call, lift, bind, try_catch,
      throw.
    destruct (readFileSync h schemaPath) as [text |]; simpl;
      [| discriminate].
    destruct (JSON_parse h text); simpl; [reflexivity | discriminate].
  - now repeat split.
Qed.

Lemma findJsonFiles_eq (h : Host) (folder : string) :
  findJsonFiles h folder
  = (let options := {| fg_cwd := path.joinPaths [cwd h; folder];
                       fg_absolute := true;
                       fg_ignore := ignorePatterns |} in
     ([Glob "**/*.json" options], fg h "**/*.json" options)).
Proof.
  unfold findJsonFiles, call, bind, ret.
  now destruct (fg h _ _).
Qed.

(** What a run reports and how often it compiles, by the path it takes. *)
Lemma run_shape (h : Host) :
  match result (findJsonFiles h (folderInput h)) with
  | Throw e =>
      verdictEvents (trace (run h))
      = [SetFailed ("Action failed: " ++ errorMessage e)]
      /\ compilations (trace (run h)) = 0
  | Ok jsonFiles =>
      if Nat.eqb (length jsonFiles) 0 then
        verdictEvents (trace (run h))
        = [SetOutput "valid-files" 0; SetOutput "invalid-files" 0]
        /\ compilations (trace (run h)) = 0
      else
        match result (prepareGlobal h (getInput h "schema")) with
        | Throw e =>
            verdictEvents (trace (run h))
            = [SetFailed ("Action failed: " ++ errorMessage e)]
            /\ compilations (trace (run h))
               = (if loads h (getInput h "schema") then 1 else 0)
        | Ok g =>
            exists results,
              result (validateAll h g jsonFiles) = Ok results
              /\ verdictEvents (trace (run h))
                 = (SetOutput "valid-files" (validCount results)
                    :: SetOutput "invalid-files" (invalidCount results)
                    :: if Nat.ltb 0 (invalidCount results)
                       then [SetFailed
                               ("Found "
                                ++ String_of_nat (invalidCount results)
                                ++ " invalid JSON file(s)")]
                       else [])
              /\ compilations (trace (run h))
                 = (if truthy (getInput h "schema") then 1
                    else length (filter (declaresLoadableSchema h)
                                        jsonFiles))
        end
  end.
Proof.
  unfold run, runBody. fold (folderInput h). cbv zeta.
  unfold verdictEvents, compilations.
  rewrite !filter_trace_try_catch.
  repeat (rewrite ?result_bind, ?filter_trace_bind;
          cbn [emit result snd trace fst filter isVerdict isCompile app]).
  rewrite findJsonFiles_eq.
  cbn [result snd trace fst filter isVerdict isCompile app].
  destruct (fg h _ _) as [jsonFiles | e].
  2:{ cbn [emit result snd trace fst filter isVerdict isCompile app length].
      now split. }
  destruct (Nat.eqb (length jsonFiles) 0).
  { repeat (rewrite ?result_bind, ?filter_trace_bind;
            cbn [emit result snd trace fst filter isVerdict isCompile app
                 length]).
    now split. }
  destruct (prepareGlobal_shape h (getInput h "schema")) as (Hq & Hc & Hg).
  unfold verdictEvents, compilations in Hq, Hc.
  repeat (rewrite ?result_bind, ?filter_trace_bind;
          cbn [emit result snd trace fst filter isVerdict isCompile app
               length]).
  rewrite Hq.
  destruct (result (prepareGlobal h (getInput h "schema"))) as [g | e].
  2:{ destruct Hg as [Htruthy _]. rewrite Htruthy in Hc.
      cbn [emit result snd trace fst filter isVerdict isCompile app length].
      rewrite ?app_nil_r, Hc. now split. }
  destruct (validateAll_shape h g jsonFiles)
    as (evs & results & Hall & _ & Hq2 & Hc2).
  destruct (report_shape h results) as (Hq3 & Hc3 & Hres3).
  unfold verdictEvents, compilations in Hq2, Hc2, Hq3, Hc3.
  exists results.
  repeat (rewrite ?result_bind, ?filter_trace_bind, ?Hall;
          cbn [emit result snd trace fst filter isVerdict isCompile app
               length]).
  rewrite Hres3, Hq2, Hq3.
  apply length_zero_iff_nil in Hc3. rewrite Hc3.
  rewrite !app_nil_r, !length_app, Hc, Hc2.
  cbn [app length].
  repeat split.
  destruct (truthy (getInput h "schema")).
  - destruct Hg as (validate & -> & _ & ->). reflexivity.
  - subst g. reflexivity.
Qed.

(** ** The options of every compilation *)

Lemma In_trace_bind {A B} (e : event) (m : M A) (k : A -> M B) :
  In e (trace (bind m k)) ->
  In e (trace m) \/ exists a, result m = Ok a /\ In e (trace (k a)).
Proof.
  rewrite trace_bind, in_app_iff.
  intros [Hin | Hin]; [now left |].
  destruct (result m) as [a | x]; [| destruct Hin].
  right. now exists a.
Qed.

Lemma In_trace_try_catch {A} (e : event) (m : M A) (handler : exn -> M A) :
  In e (trace (try_catch m handler)) ->
  In e (trace m) \/ exists x, result m = Throw x /\ In e (trace (handler x)).
Proof.
  rewrite trace_try_catch, in_app_iff.
  intros [Hin | Hin]; [now left |].
  destruct (result m) as [a | x]; [destruct Hin |].
  right. now exists x.
Qed.

Lemma no_compilation (evs : list event) :
  compilations evs = 0 -> compiledWith ajvOptions evs.
Proof.
  unfold compilations. intros Hnone o schema Hin.
  apply length_zero_iff_nil in Hnone.
  assert (Hkept : In (AjvCompile o schema) (filter isCompile evs))
    by (apply filter_In; now split).
  rewrite Hnone in Hkept. destruct Hkept.
Qed.

Lemma compiledWith_compileSchemaAt (h : Host) (p : string) :
  compiledWith ajvOptions (trace (compileSchemaAt h p)).
Proof.
  intros o schema Hin. unfold compileSchemaAt in Hin.
  apply In_trace_bind in Hin as [Hin | (loaded & _ & Hin)].
  - unfold loadSchema, call, lift, bind, try_catch, throw in Hin.
    destruct (readFileSync h p) as [text |]; simpl in Hin.
    + destruct (JSON_parse h text); simpl in Hin;
        destruct Hin as [Hin | []]; discriminate.
    + destruct Hin as [Hin | []]; discriminate.
  - destruct Hin as [Hin | []]. now injection Hin as <- _.
Qed.

Lemma compiledWith_validateFile (h : Host) (g : option ValidateFunction)
      (file : string) :
  compiledWith ajvOptions (trace (validateFile h g file)).
Proof.
  destruct g as [validate |].
  { destruct (validateFile_shape h (Some validate) file)
      as (evs & r & -> & _ & Hc).
    now apply no_compilation. }
  intros o schema Hin. unfold validateFile in Hin.
  apply In_trace_bind in Hin as [Hin | (chosen & _ & Hin)].
  - unfold fileValidateFor in Hin.
    apply In_trace_try_catch in Hin as [Hin | (x & _ & [])].
    apply In_trace_bind in Hin as [[Hin | []] | (content & _ & Hin)];
      [discriminate |].
    destruct (extractSchemaFromJson h content file) as [p |]; [| destruct Hin].
    destruct (truthy p); [| destruct Hin].
    apply In_trace_bind in Hin as [[Hin | []] | (present & _ & Hin)];
      [discriminate |].
    destruct present; [| destruct Hin].
    apply In_trace_bind in Hin as [[Hin | []] | (u & _ & Hin)];
      [discriminate |].
    apply In_trace_bind in Hin as [Hin | (validate & _ & [])].
    now apply (compiledWith_compileSchemaAt h p o schema).
  - destruct chosen as [validate |].
    + destruct (validateJsonSchema_returns h file validate) as [r Hr].
      rewrite Hr in Hin. destruct Hin as [Hin | []]; discriminate.
    + destruct (validateJsonSyntax_returns h file) as [r Hr].
      rewrite Hr in Hin. destruct Hin as [Hin | []]; discriminate.
Qed.

Lemma compiledWith_validateAll (h : Host) (g : option ValidateFunction)
      (jsonFiles : list string) :
  compiledWith ajvOptions (trace (validateAll h g jsonFiles)).
Proof.
  induction jsonFiles as [| file rest IH]; intros o schema Hin;
    [destruct Hin |].
  cbn [validateAll] in Hin.
  apply In_trace_bind in Hin as [Hin | (r & _ & Hin)];
    [now apply (compiledWith_validateFile h g file o schema) |].
  apply In_trace_bind in Hin as [Hin | (results & _ & [])].
  now apply (IH o schema).
Qed.

(** Every schema a run compiles, it compiles with [allErrors: true] on an
    instance extended by [addFormats]. *)
Lemma compiledWith_run (h : Host) : compiledWith ajvOptions (trace (run h)).
Proof.
  intros o schema Hin. unfold run in Hin.
  apply In_trace_try_catch in Hin as [Hin | (x & _ & [Hin | []])];
    [| discriminate].
  unfold runBody in Hin. cbv zeta in Hin.
  apply In_trace_bind in Hin as [[Hin | []] | (u & _ & Hin)];
    [discriminate |].
  apply In_trace_bind in Hin as [Hin | (jsonFiles & _ & Hin)].
  { rewrite findJsonFiles_eq in Hin. destruct Hin as [Hin | []].
    discriminate. }
  destruct (Nat.eqb (length jsonFiles) 0).
  { simpl in Hin. intuition discriminate. }
  apply In_trace_bind in Hin as [[Hin | []] | (u' & _ & Hin)];
    [discriminate |].
  apply In_trace_bind in Hin as [Hin | (g & _ & Hin)].
  { unfold prepareGlobal in Hin.
    destruct (truthy (getInput h "schema")); [| destruct Hin].
    apply In_trace_bind in Hin as [[Hin | []] | (u'' & _ & Hin)];
      [discriminate |].
    apply In_trace_bind in Hin as [Hin | (validate & _ & [])].
    exact (compiledWith_compileSchemaAt h _ o schema Hin). }
  apply In_trace_bind in Hin as [Hin | (results & _ & Hin)].
  { now apply (compiledWith_validateAll h g jsonFiles o schema). }
  destruct (report_shape h results) as (_ & Hnone & _).
  exact (no_compilation _ Hnone o schema Hin).
Qed.

(** ** Precedence of the global schema *)

Lemma validateFile_global (h : Host) (validate : ValidateFunction)
      (file : string) :
  validateFile h (Some validate) file = validateJsonSchema h file validate.
Proof.
  unfold validateFile, fileValidateFor, bind, ret.
  now destruct (validateJsonSchema h file validate).
Qed.

Lemma validateAll_global_trace (h : Host) (validate : ValidateFunction)
      (jsonFiles : list string) :
  trace (validateAll h (Some validate) jsonFiles) = map FsRead jsonFiles.
Proof.
  induction jsonFiles as [| file rest IH]; [reflexivity |].
  cbn [validateAll map].
  destruct (validateJsonSchema_returns h file validate) as [r Hr].
  destruct (validateAll_shape h (Some validate) rest)
    as (evs & results & Hall & _).
  rewrite validateFile_global, Hr, Hall in *.
  unfold bind, ret. simpl in *. now rewrite app_nil_r, IH.
Qed.

(** C4. With a non-empty global schema path, a run that gets past the
    preparation of the schema holds the validator compiled from that path,
    and the loop settles on it for every document without any effect: the
    document is not read, parsed or searched for [$schema] to choose the
    validator, whatever the host holds at that path.  Each document is then
    validated by [validateJsonSchema] with that validator, and the whole loop
    reads each document once, for that validation, and does nothing else. *)
Theorem global_schema_takes_precedence
        (h : Host) (schemaPath : string) (g : option ValidateFunction) :
  truthy schemaPath = true ->
  result (prepareGlobal h schemaPath) = Ok g ->
  exists validate : ValidateFunction,
    g = Some validate
    /\ result (compileSchemaAt h schemaPath) = Ok validate
    /\ (forall (h' : Host) (file : string),
        fileValidateFor h' g file = ([], Ok g))
    /\ (forall file : string,
        validateFile h g file = validateJsonSchema h file validate)
    /\ (forall jsonFiles : list string,
        trace (validateAll h g jsonFiles) = map FsRead jsonFiles).
Proof.
  intros Htruthy Hprep.
  destruct (prepareGlobal_shape h schemaPath) as (_ & _ & Hg).
  rewrite Hprep, Htruthy in Hg.
  destruct Hg as (validate & -> & Hcompiled & _).
  exists validate. repeat split.
  - exact Hcompiled.
  - apply validateFile_global.
  - apply validateAll_global_trace.
Qed.

(** C4 at a run whose [schema] input names the user schema. *)
Lemma global_schema_takes_precedence_witness :
  exists validate : ValidateFunction,
    Some (Fixture.requiring ajvOptions ["name"; "email"]) = Some validate
    /\ result (compileSchemaAt Fixture.globalHost "data/user.schema.json")
       = Ok validate
    /\ (forall (h' : Host) (file : string),
        fileValidateFor h' (Some (Fixture.requiring ajvOptions
                                    ["name"; "email"])) file
        = ([], Ok (Some (Fixture.requiring ajvOptions ["name"; "email"]))))
    /\ (forall file : string,
        validateFile Fixture.globalHost
          (Some (Fixture.requiring ajvOptions ["name"; "email"])) file
        = validateJsonSchema Fixture.globalHost file validate)
    /\ (forall jsonFiles : list string,
        trace (validateAll Fixture.globalHost
                 (Some (Fixture.requiring ajvOptions ["name"; "email"]))
                 jsonFiles)
        = map FsRead jsonFiles).
Proof.
  apply (global_schema_takes_precedence Fixture.globalHost
           "data/user.schema.json"
           (Some (Fixture.requiring ajvOptions ["name"; "email"])));
    reflexivity.
Defined.

(** The global schema wins over the [$schema] the documents declare: both
    documents are validated against it, and it is compiled once. *)
Example global_run_compiles_once :
  compilations (trace (run Fixture.globalHost)) = 1
  /\ verdictEvents (trace (run Fixture.globalHost))
     = [SetOutput "valid-files" 1; SetOutput "invalid-files" 2;
        SetFailed "Found 2 invalid JSON file(s)"].
Proof. split; reflexivity. Qed.

(** ** Compilations per run *)

(** C1, as stated, fails: two documents that declare the same schema path
    make the run compile that schema twice. *)
Lemma shared_schema_compiled_per_document :
  extractSchemaFromJson Fixture.sharedHost Fixture.aliceText
    "/work/data/alice.json" = Some "/work/data/user.schema.json"
  /\ extractSchemaFromJson Fixture.sharedHost Fixture.nobodyText
       "/work/data/nobody.json" = Some "/work/data/user.schema.json"
  /\ getInput Fixture.sharedHost "schema" = ""
  /\ compilations (trace (run Fixture.sharedHost)) = 2
  /\ ~ compilations (trace (run Fixture.sharedHost)) <= 1.
Proof.
  repeat split; try reflexivity.
  vm_compute. lia.
Qed.

(** C1, amended. With a global schema, a run that finds documents compiles
    at most once, whatever their number: once when the schema loads, never
    when it does not.  Without one there is no cache: [ajv.compile] is called
    once for every document that declares a local [$schema] that exists and
    loads, also when several documents declare the same path. *)
Theorem compilations_of_a_run (h : Host) (jsonFiles : list string) :
  result (findJsonFiles h (folderInput h)) = Ok jsonFiles ->
  jsonFiles <> [] ->
  (truthy (getInput h "schema") = true ->
   compilations (trace (run h))
   = if loads h (getInput h "schema") then 1 else 0)
  /\ (truthy (getInput h "schema") = false ->
      compilations (trace (run h))
      = length (filter (declaresLoadableSchema h) jsonFiles)).
Proof.
  intros Hfound Hsome.
  pose proof (run_shape h) as Hrun.
  rewrite Hfound in Hrun.
  destruct (Nat.eqb (length jsonFiles) 0) eqn:Hlen.
  { apply Nat.eqb_eq, length_zero_iff_nil in Hlen. contradiction. }
  destruct (prepareGlobal_shape h (getInput h "schema")) as (_ & _ & Hg).
  destruct (result (prepareGlobal h (getInput h "schema"))) as [g | e].
  - destruct Hrun as (results & _ & _ & Hcount).
    split; intros Htruthy; rewrite Htruthy in *.
    + destruct Hg as (validate & _ & _ & ->). exact Hcount.
    + exact Hcount.
  - destruct Hrun as [_ Hcount], Hg as [Htruthy _].
    split; intros Htruthy'; [exact Hcount | congruence].
Qed.

(** C1, amended, at the run over the two documents that share a schema. *)
Lemma compilations_of_a_run_witness :
  (truthy (getInput Fixture.sharedHost "schema") = true ->
   compilations (trace (run Fixture.sharedHost))
   = if loads Fixture.sharedHost (getInput Fixture.sharedHost "schema")
     then 1 else 0)
  /\ (truthy (getInput Fixture.sharedHost "schema") = false ->
      compilations (trace (run Fixture.sharedHost))
      = length (filter (declaresLoadableSchema Fixture.sharedHost)
                       ["/work/data/alice.json"; "/work/data/nobody.json";
                        "/work/data/user.schema.json"])).
Proof.
  apply (compilations_of_a_run Fixture.sharedHost
           ["/work/data/alice.json"; "/work/data/nobody.json";
            "/work/data/user.schema.json"]);
    [reflexivity | discriminate].
Defined.

(** ** The outcome of a run *)

Lemma failed_verdictEvents (evs : list event) :
  failed (verdictEvents evs) = failed evs.
Proof.
  unfold failed, verdictEvents.
  induction evs as [| e evs IH]; [reflexivity |].
  destruct e; simpl; now rewrite ?IH.
Qed.




(** ** File discovery *)

Lemma matchTokens_globstar (dot : bool) (toks : list FastGlob.token)
      (segs : list string) :
  FastGlob.matchTokens dot (FastGlob.Globstar :: toks) segs
  = FastGlob.matchTokens dot toks segs
    || match segs with
       | [] => false
       | s :: segs' =>
           (dot || negb (FastGlob.hidden s))
           && FastGlob.matchTokens dot (FastGlob.Globstar :: toks) segs'
       end.
Proof. destruct segs; reflexivity. Qed.

Lemma matchTokens_trailing_globstar (segs : list string) :
  FastGlob.matchTokens true [FastGlob.Globstar] segs = true.
Proof.
  induction segs as [| s segs IH]; [reflexivity |].
  rewrite matchTokens_globstar, IH. reflexivity.
Qed.

Lemma matchTokens_directory (name : string) (segs : list string) :
  FastGlob.segmentMatch true name name = true ->
  In name segs ->
  FastGlob.matchTokens true
    [FastGlob.Globstar; FastGlob.Segment name; FastGlob.Globstar] segs = true.
Proof.
  intros Hself.
  induction segs as [| s segs IH]; intros Hin; [destruct Hin |].
  rewrite matchTokens_globstar.
  destruct Hin as [-> | Hin].
  - change (FastGlob.matchTokens true
              [FastGlob.Segment name; FastGlob.Globstar] (name :: segs))
      with (FastGlob.segmentMatch true name name
            && FastGlob.matchTokens true [FastGlob.Globstar] segs).
    now rewrite Hself, matchTokens_trailing_globstar.
  - rewrite (IH Hin). apply orb_true_r.
Qed.

Lemma ignorePatterns_match_excluded (name rel : string) :
  In name excludedNames ->
  In name (path.split rel) ->
  existsb (fun ig => FastGlob.matches true ig rel) ignorePatterns = true.
Proof.
  intros Hname Hin.
  assert (Hdir : FastGlob.matches true ("**/" ++ name ++ "/**") rel = true).
  { unfold FastGlob.matches.
    destruct Hname as [<- | [<- | [<- | [<- | []]]]];
      apply matchTokens_directory; solve [reflexivity | exact Hin]. }
  apply existsb_exists. exists ("**/" ++ name ++ "/**"). split; [| exact Hdir].
  destruct Hname as [<- | [<- | [<- | [<- | []]]]]; simpl; tauto.
Qed.

(** ** The theorems at concrete documents *)

(** C5 at the document [/a/b/doc.json] declaring [./user.schema.json]. *)
Lemma extractSchemaFromJson_resolves_beside_document_witness :
  extractSchemaFromJson Fixture.besideHost Fixture.nobodyText "/a/b/doc.json"
  = Some "/a/b/user.schema.json"
  /\ path.isAbsolute "/a/b/user.schema.json" = true
  /\ (path.isAbsolute "/a/b/doc.json" = true ->
      forall other : string,
        path.resolve other [path.dirname "/a/b/doc.json";
                            "./user.schema.json"]
        = "/a/b/user.schema.json").
Proof.
  exact (extractSchemaFromJson_resolves_beside_document
           Fixture.besideHost Fixture.nobodyText "/a/b/doc.json"
           [("$schema", JString "./user.schema.json")] "./user.schema.json"
           eq_refl eq_refl eq_refl eq_refl eq_refl).
Defined.

(** C6 at a document whose [$schema] is the draft-07 URL. *)
Lemma extractSchemaFromJson_remote_is_none_witness :
  extractSchemaFromJson Fixture.remoteHost Fixture.remoteText
    "/work/remote.json" = None
  /\ (readFileSync Fixture.remoteHost "/work/remote.json"
      = Ok Fixture.remoteText ->
      fileValidateFor Fixture.remoteHost None "/work/remote.json"
      = ([FsRead "/work/remote.json"], Ok None)
      /\ exists r : ValidationResult,
           validateJsonSyntax Fixture.remoteHost "/work/remote.json"
           = ([FsRead "/work/remote.json"], Ok r)
           /\ validateFile Fixture.remoteHost None "/work/remote.json"
              = ([FsRead "/work/remote.json"; FsRead "/work/remote.json"],
                 Ok r)).
Proof.
  apply (extractSchemaFromJson_remote_is_none
           Fixture.remoteHost Fixture.remoteText "/work/remote.json"
           [("$schema", JString "http://json-schema.org/draft-07/schema#")]
           "http://json-schema.org/draft-07/schema#");
    reflexivity.
Defined.

(** C9 at a document whose declared schema is not on the disk. *)
Lemma missing_local_schema_is_syntax_only_witness :
  fileValidateFor Fixture.danglingHost None "/work/data/nobody.json"
  = ([FsRead "/work/data/nobody.json";
      FsExists "/work/data/user.schema.json"], Ok None)
  /\ exists r : ValidationResult,
       validateJsonSyntax Fixture.danglingHost "/work/data/nobody.json"
       = ([FsRead "/work/data/nobody.json"], Ok r)
       /\ validateFile Fixture.danglingHost None "/work/data/nobody.json"
          = ([FsRead "/work/data/nobody.json";
              FsExists "/work/data/user.schema.json";
              FsRead "/work/data/nobody.json"], Ok r).
Proof.
  apply (missing_local_schema_is_syntax_only
           Fixture.danglingHost "/work/data/nobody.json" Fixture.nobodyText
           "/work/data/user.schema.json");
    reflexivity.
Defined.

(** C10 at a document whose declared schema is not JSON. *)
Lemma unusable_local_schema_is_syntax_only_witness :
  result (fileValidateFor Fixture.garbledHost None "/work/data/nobody.json")
  = Ok None
  /\ existsb isAlarm
       (trace (validateFile Fixture.garbledHost None
                 "/work/data/nobody.json")) = false
  /\ exists r : ValidationResult,
       validateJsonSyntax Fixture.garbledHost "/work/data/nobody.json"
       = ([FsRead "/work/data/nobody.json"], Ok r)
       /\ result (validateFile Fixture.garbledHost None
                    "/work/data/nobody.json") = Ok r.
Proof.
  apply (unusable_local_schema_is_syntax_only
           Fixture.garbledHost "/work/data/nobody.json" Fixture.nobodyText
           "/work/data/user.schema.json");
    [reflexivity | reflexivity | reflexivity |].
  right; left.
  exists Fixture.brokenText, (JsError "SyntaxError" "Unexpected token in JSON").
  split; reflexivity.
Defined.

(** The document of [garbledHost] is reported valid: its own syntax is
    fine, and the unusable schema it declares costs it nothing. *)
Example garbled_schema_document_is_valid :
  validateFile Fixture.garbledHost None "/work/data/nobody.json"
  = ([FsRead "/work/data/nobody.json";
      FsExists "/work/data/user.schema.json";
      Info "Using schema from $schema property for data/nobody.json: data/user.schema.json";
      FsRead "/work/data/user.schema.json";
      FsRead "/work/data/nobody.json"],
     Ok {| valid := true; file := "/work/data/nobody.json"; error := None |}).
Proof. reflexivity. Qed.

(** Without [allErrors] the fixture validator stops at the first missing
    property; the action always compiles with [allErrors]. *)
Example first_violation_only :
  Fixture.requiring {| allErrors := false; withFormats := true |}
    ["name"; "email"] Fixture.nobody
  = Ok (false, Some (firstn 1 nobodyViolations)).
Proof. reflexivity. Qed.

(** ** Further properties of [src/main.ts] *)

(** X1. [loadSchema] reads the schema file once.  It returns the parsed
    schema exactly when the file reads and parses; otherwise it throws an
    [Error] whose message names the path and carries the text of the cause,
    whether the cause is the read or the parse. *)
Theorem loadSchema_wraps_the_cause (h : Host) (schemaPath : string) :
  trace (loadSchema h schemaPath) = [FsRead schemaPath]
  /\ (forall schema : json,
      result (loadSchema h schemaPath) = Ok schema <->
      exists text, readFileSync h schemaPath = Ok text
                   /\ JSON_parse h text = Ok schema)
  /\ (forall thrown : exn,
      result (loadSchema h schemaPath) = Throw thrown <->
      exists cause,
        thrown = loadFailure schemaPath cause
        /\ (readFileSync h schemaPath = Throw cause
            \/ exists text, readFileSync h schemaPath = Ok text
                            /\ JSON_parse h text = Throw cause)).
Proof.
  unfold loadSchema, loadFailure, call, lift, bind, try_catch, throw.
  destruct (readFileSync h schemaPath) as [text | e] eqn:Hread; simpl.
  - destruct (JSON_parse h text) as [schema | e] eqn:Hparse; simpl.
    + split; [reflexivity |]. split.
      * intros s. split.
        -- intros [= <-]. now exists text.
        -- intros (t & [= <-] & Hs). congruence.
      * intros thrown. split; [discriminate |].
        intros (cause & _ & [Hc | (t & [= <-] & Hc)]); congruence.
    + split; [reflexivity |]. split.
      * intros s. split; [discriminate |].
        intros (t & [= <-] & Hs). congruence.
      * intros thrown. split.
        -- intros [= <-]. exists e. split; [reflexivity |].
           right. now exists text.
        -- intros (cause & -> & [Hc | (t & [= <-] & Hc)]); congruence.
  - split; [reflexivity |]. split.
    + intros s. split; [discriminate |].
      intros (t & Ht & _). discriminate.
    + intros thrown. split.
      * intros [= <-]. exists e. split; [reflexivity | now left].
      * intros (cause & -> & [Hc | (t & Ht & _)]); congruence.
Qed.

(** X2. [extractSchemaFromJson] returns a path in one case only: the
    content parses to an object whose [$schema] is a string that starts with
    neither [http://] nor [https://], and the path is that string resolved
    against the directory of the document.  For content that does not
    parse, a root that is not an object, a missing [$schema] or one that is
    not a string, it returns nothing. *)
Theorem extractSchemaFromJson_some_iff
        (h : Host) (content filePath p : string) :
  extractSchemaFromJson h content filePath = Some p <->
  exists (members : list (string * json)) (schemaRef : string),
    JSON_parse h content = Ok (JObject members)
    /\ getProperty "$schema" members = Some (JString schemaRef)
    /\ startsWith schemaRef "http://" = false
    /\ startsWith schemaRef "https://" = false
    /\ p = path.resolve (cwd h) [path.dirname filePath; schemaRef].
Proof.
  unfold extractSchemaFromJson. split.
  - destruct (JSON_parse h content) as [[| | | | | members] |] eqn:Hparse;
      try discriminate.
    destruct (getProperty "$schema" members) as [[| | | schemaRef | |] |]
      eqn:Hprop; try discriminate.
    destruct (startsWith schemaRef "http://") eqn:Hhttp;
      destruct (startsWith schemaRef "https://") eqn:Hhttps;
      try discriminate.
    intros [= <-]. now exists members, schemaRef.
  - intros (members & schemaRef & -> & -> & -> & -> & ->). reflexivity.
Qed.

Example extractSchemaFromJson_no_schema_property :
  extractSchemaFromJson Fixture.sharedHost Fixture.plainText "/work/t.json"
  = None.
Proof. reflexivity. Qed.

Example extractSchemaFromJson_invalid_json :
  extractSchemaFromJson Fixture.sharedHost Fixture.brokenText "/work/t.json"
  = None.
Proof. reflexivity. Qed.

Example extractSchemaFromJson_scalar_root :
  extractSchemaFromJson Fixture.sharedHost Fixture.numberText "/work/t.json"
  = None.
Proof. reflexivity. Qed.

Lemma truthy_errorText (errors : option (list ErrorObject)) :
  truthy (errorText errors) = true.
Proof.
  unfold errorText.
  destruct errors as [errs |]; [| reflexivity].
  destruct (truthy (join ", " (map errorLine errs))) eqn:Hjoined;
    [exact Hjoined | reflexivity].
Qed.

(** X3. [validateJsonSchema] never throws: it reads the document once and
    returns a result for it.  A failed read, a failed parse and an exception
    of the validator all give an invalid result with the message of the
    failure; an answer [false] gives an invalid result whose error text is
    never empty, and is [Unknown validation error] when the validator left
    no violation; an answer [true] gives a valid result without error. *)
Theorem validateJsonSchema_never_throws
        (h : Host) (filePath : string) (validate : ValidateFunction) :
  exists r : ValidationResult,
    validateJsonSchema h filePath validate = ([FsRead filePath], Ok r)
    /\ file r = filePath
    /\ (forall e, readFileSync h filePath = Throw e ->
        valid r = false /\ error r = Some (errorMessage e))
    /\ (forall content e,
        readFileSync h filePath = Ok content ->
        JSON_parse h content = Throw e ->
        valid r = false /\ error r = Some (errorMessage e))
    /\ (forall content data,
        readFileSync h filePath = Ok content ->
        JSON_parse h content = Ok data ->
        match validate data with
        | Throw e => valid r = false /\ error r = Some (errorMessage e)
        | Ok (true, _) => valid r = true /\ error r = None
        | Ok (false, errors) =>
            valid r = false
            /\ error r = Some (errorText errors)
            /\ truthy (errorText errors) = true
            /\ (violations errors = [] ->
                error r = Some "Unknown validation error")
        end).
Proof.
  unfold validateJsonSchema, call, lift, bind, try_catch, ret.
  destruct (readFileSync h filePath) as [content | e] eqn:Hread; simpl.
  2:{ eexists; split; [reflexivity |]; simpl.
      repeat split; intros; try discriminate; congruence. }
  destruct (JSON_parse h content) as [data | e] eqn:Hparse; simpl.
  2:{ eexists; split; [reflexivity |]; simpl.
      repeat split; intros; try discriminate; congruence. }
  assert (Hsame : forall c d, Ok content = Ok c -> JSON_parse h c = Ok d ->
                              validate d = validate data).
  { intros c d [= <-] Hd. congruence. }
  destruct (validate data) as [[ok errors] | e] eqn:Hcall; simpl.
  2:{ eexists; split; [reflexivity |]; simpl.
      repeat split; intros; try discriminate; try congruence.
      rewrite (Hsame _ _ H H0). now split. }
  destruct ok; simpl; (eexists; split; [reflexivity |]); simpl;
    (split; [reflexivity |]);
    (split; [intros; discriminate |]);
    (split; [intros; congruence |]);
    intros c d Hc Hd; rewrite (Hsame _ _ Hc Hd).
  - now split.
  - repeat split.
    + apply truthy_errorText.
    + intros Hnone. destruct errors as [errs |]; [| reflexivity].
      simpl in Hnone. subst. reflexivity.
Qed.

(** X4. Schema validation contains the syntax check: whatever the
    validator, a document the syntax check rejects gets the very same
    invalid result from [validateJsonSchema], and a document
    [validateJsonSchema] accepts passes the syntax check. *)
Theorem schema_validation_contains_syntax_check
        (h : Host) (filePath : string) (validate : ValidateFunction) :
  exists syntax schema : ValidationResult,
    validateJsonSyntax h filePath = ([FsRead filePath], Ok syntax)
    /\ validateJsonSchema h filePath validate = ([FsRead filePath], Ok schema)
    /\ (valid syntax = false -> schema = syntax)
    /\ (valid schema = true -> valid syntax = true).
Proof.
  unfold validateJsonSyntax, validateJsonSchema, call, lift, bind, try_catch,
    ret.
  destruct (readFileSync h filePath) as [content | e]; simpl.
  2:{ do 2 eexists. repeat split; discriminate. }
  destruct (JSON_parse h content) as [data | e]; simpl.
  2:{ do 2 eexists. repeat split; discriminate. }
  destruct (validate data) as [[[|] errors] | e]; simpl;
    do 2 eexists; repeat split; simpl; discriminate.
Qed.

(** ** The whole trace of a run *)

Lemma result_run (h : Host) : result (run h) = Ok tt.
Proof.
  unfold run. rewrite result_try_catch.
  destruct (result (runBody h)) as [[] | e]; reflexivity.
Qed.

(** The trace of [run], by the path the run takes. *)
Lemma run_trace (h : Host) :
  trace (run h)
  = Info ("Scanning for JSON files in: " ++ folderInput h)
    :: Glob "**/*.json" (searchOptions h (folderInput h))
    :: match fg h "**/*.json" (searchOptions h (folderInput h)) with
       | Throw e => [SetFailed ("Action failed: " ++ errorMessage e)]
       | Ok jsonFiles =>
           if Nat.eqb (length jsonFiles) 0 then
             [Warning ("No JSON files found in " ++ folderInput h);
              SetOutput "valid-files" 0; SetOutput "invalid-files" 0]
           else
             Info ("Found " ++ String_of_nat (length jsonFiles)
                   ++ " JSON file(s)")
             :: (trace (prepareGlobal h (getInput h "schema"))
                 ++ match result (prepareGlobal h (getInput h "schema")) with
                    | Throw e =>
                        [SetFailed ("Action failed: " ++ errorMessage e)]
                    | Ok g =>
                        trace (validateAll h g jsonFiles)
                        ++ match result (validateAll h g jsonFiles) with
                           | Ok results => trace (report h results)
                           | Throw e =>
                               [SetFailed ("Action failed: "
                                           ++ errorMessage e)]
                           end
                    end)%list
       end.
Proof.
  unfold run, runBody. fold (folderInput h). cbv zeta.
  rewrite trace_try_catch.
  repeat (rewrite ?result_bind, ?trace_bind;
          cbn [emit result snd trace fst app]).
  rewrite findJsonFiles_eq. cbv zeta. fold (searchOptions h (folderInput h)).
  cbn [result snd trace fst app].
  destruct (fg h "**/*.json" (searchOptions h (folderInput h)))
    as [jsonFiles | e]; [| reflexivity].
  destruct (Nat.eqb (length jsonFiles) 0).
  { repeat (rewrite ?result_bind, ?trace_bind;
            cbn [emit result snd trace fst app]).
    reflexivity. }
  repeat (rewrite ?result_bind, ?trace_bind;
          cbn [emit result snd trace fst app]).
  do 3 f_equal. rewrite <- !app_assoc. f_equal.
  destruct (result (prepareGlobal h (getInput h "schema"))) as [g | e];
    [| reflexivity].
  repeat (rewrite ?result_bind, ?trace_bind;
          cbn [emit result snd trace fst app]).
  destruct (result (validateAll h g jsonFiles)) as [results | e].
  - destruct (report_shape h results) as (_ & _ & ->).
    now rewrite !app_nil_r.
  - now rewrite app_nil_r.
Qed.

Lemma loop_events_compileSchemaAt (h : Host) (p : string) (e : event) :
  In e (trace (compileSchemaAt h p)) -> isLoopEvent e = true.
Proof.
  unfold compileSchemaAt, loadSchema, call, lift, bind, try_catch, throw.
  destruct (readFileSync h p) as [text |]; simpl.
  - destruct (JSON_parse h text) as [schema |]; simpl.
    + destruct (ajv_compile h ajvOptions schema); simpl;
        intros [<- | [<- | []]]; reflexivity.
    + intros [<- | []]; reflexivity.
  - intros [<- | []]; reflexivity.
Qed.

Lemma loop_events_validateFile (h : Host) (g : option ValidateFunction)
      (file : string) (e : event) :
  In e (trace (validateFile h g file)) -> isLoopEvent e = true.
Proof.
  intros Hin. unfold validateFile in Hin.
  apply In_trace_bind in Hin as [Hin | (chosen & _ & Hin)].
  - unfold fileValidateFor in Hin.
    destruct g as [validate |]; [destruct Hin |].
    apply In_trace_try_catch in Hin as [Hin | (x & _ & [])].
    apply In_trace_bind in Hin as [[<- | []] | (content & _ & Hin)];
      [reflexivity |].
    destruct (extractSchemaFromJson h content file) as [p |]; [| destruct Hin].
    destruct (truthy p); [| destruct Hin].
    apply In_trace_bind in Hin as [[<- | []] | (present & _ & Hin)];
      [reflexivity |].
    destruct present; [| destruct Hin].
    apply In_trace_bind in Hin as [[<- | []] | (u & _ & Hin)];
      [reflexivity |].
    apply In_trace_bind in Hin as [Hin | (validate & _ & [])].
    exact (loop_events_compileSchemaAt h p e Hin).
  - destruct chosen as [validate |].
    + destruct (validateJsonSchema_returns h file validate) as [r Hr].
      rewrite Hr in Hin. destruct Hin as [<- | []]; reflexivity.
    + destruct (validateJsonSyntax_returns h file) as [r Hr].
      rewrite Hr in Hin. destruct Hin as [<- | []]; reflexivity.
Qed.

Lemma loop_events_validateAll (h : Host) (g : option ValidateFunction)
      (jsonFiles : list string) (e : event) :
  In e (trace (validateAll h g jsonFiles)) -> isLoopEvent e = true.
Proof.
  induction jsonFiles as [| file rest IH]; intros Hin; [destruct Hin |].
  cbn [validateAll] in Hin.
  apply In_trace_bind in Hin as [Hin | (r & _ & Hin)];
    [exact (loop_events_validateFile h g file e Hin) |].
  apply In_trace_bind in Hin as [Hin | (results & _ & [])].
  exact (IH Hin).
Qed.

Lemma loop_events_prepareGlobal (h : Host) (schemaPath : string) (e : event) :
  In e (trace (prepareGlobal h schemaPath)) -> isLoopEvent e = true.
Proof.
  intros Hin. unfold prepareGlobal in Hin.
  destruct (truthy schemaPath); [| destruct Hin].
  apply In_trace_bind in Hin as [[<- | []] | (u & _ & Hin)]; [reflexivity |].
  apply In_trace_bind in Hin as [Hin | (validate & _ & [])].
  exact (loop_events_compileSchemaAt h schemaPath e Hin).
Qed.

Lemma report_events (h : Host) (results : list ValidationResult) (e : event) :
  In e (trace (report h results)) -> isReportEvent e = true.
Proof.
  assert (Hlines : forall invalidFiles,
             In e (trace (reportInvalid h invalidFiles)) ->
             isReportEvent e = true).
  { induction invalidFiles as [| r rest IH]; intros Hin; [destruct Hin |].
    cbn [reportInvalid] in Hin.
    apply In_trace_bind in Hin as [[<- | []] | (u & _ & Hin)];
      [reflexivity | exact (IH Hin)]. }
  intros Hin. unfold report in Hin. cbv zeta in Hin.
  repeat (apply In_trace_bind in Hin as [[<- | []] | (? & _ & Hin)];
          [reflexivity |]).
  apply In_trace_bind in Hin as [Hin | (? & _ & Hin)].
  - destruct (Nat.ltb 0 _); [| destruct Hin].
    apply In_trace_bind in Hin as [[<- | []] | (? & _ & Hin)];
      [reflexivity | exact (Hlines _ Hin)].
  - repeat (apply In_trace_bind in Hin as [[<- | []] | (? & _ & Hin)];
            [reflexivity |]).
    destruct (Nat.ltb 0 _); destruct Hin as [<- | []]; reflexivity.
Qed.

Lemma filter_none {A} (f : A -> bool) (l : list A) :
  (forall x, In x l -> f x = false) -> filter f l = [].
Proof.
  induction l as [| x l IH]; intros Hnone; [reflexivity |].
  simpl. rewrite (Hnone x (or_introl eq_refl)).
  apply IH. intros y Hy. apply Hnone. now right.
Qed.

(** A predicate that no event of the loop satisfies finds nothing in the
    trace of schema preparation or of the loop. *)
Lemma filter_loop_events (f : event -> bool) (evs : list event) :
  (forall e, isLoopEvent e = true -> f e = false) ->
  (forall e, In e evs -> isLoopEvent e = true) ->
  filter f evs = [].
Proof.
  intros Hf Hloop. apply filter_none. intros e Hin. auto.
Qed.

Lemma filter_isSetFailed_verdictEvents (evs : list event) :
  filter isSetFailed (verdictEvents evs) = filter isSetFailed evs.
Proof.
  unfold verdictEvents.
  induction evs as [| e evs IH]; [reflexivity |].
  destruct e; simpl; now rewrite ?IH.
Qed.

Lemma filter_isGlob_loop (evs : list event) :
  (forall e, In e evs -> isLoopEvent e = true) -> filter isGlob evs = [].
Proof.
  apply filter_loop_events. now intros [].
Qed.

Lemma filter_isGlob_report (h : Host) (results : list ValidationResult) :
  filter isGlob (trace (report h results)) = [].
Proof.
  apply filter_none. intros e Hin.
  apply report_events in Hin. now destruct e.
Qed.

Lemma M_eta_pair {A} (m : M A) : m = (trace m, result m).
Proof. now destruct m. Qed.

Lemma loadSchema_shape (h : Host) (p : string) :
  (exists schema,
      loadSchema h p = ([FsRead p], Ok schema) /\ loads h p = true)
  \/ (exists cause,
        loadSchema h p = ([FsRead p], Throw (loadFailure p cause))).
Proof.
  unfold loadSchema, loads, loadFailure, call, lift, bind, try_catch, throw.
  destruct (readFileSync h p) as [text | e]; simpl.
  - destruct (JSON_parse h text) as [schema | e]; simpl.
    + left. now exists schema.
    + right. now exists e.
  - right. now exists e.
Qed.

(** X5. [run] never throws: whatever happens inside, the promise it
    returns resolves.  It asks [fast-glob] for the files exactly once, and
    it calls [core.setFailed] at most once. *)
Theorem run_never_throws (h : Host) :
  result (run h) = Ok tt
  /\ length (filter isGlob (trace (run h))) = 1
  /\ length (filter isSetFailed (trace (run h))) <= 1.
Proof.
  split; [apply result_run |]. split.
  - rewrite run_trace. cbn [filter isGlob length]. f_equal.
    destruct (fg h _ _) as [jsonFiles | e]; [| reflexivity].
    destruct (Nat.eqb (length jsonFiles) 0); [reflexivity |].
    cbn [filter isGlob]. rewrite filter_app.
    rewrite (filter_isGlob_loop _ (loop_events_prepareGlobal h _)).
    destruct (result (prepareGlobal h (getInput h "schema"))) as [g | e];
      [| reflexivity].
    rewrite filter_app.
    rewrite (filter_isGlob_loop _ (loop_events_validateAll h g jsonFiles)).
    destruct (result (validateAll h g jsonFiles)); [| reflexivity].
    now rewrite filter_isGlob_report.
  - rewrite <- filter_isSetFailed_verdictEvents.
    pose proof (run_shape h) as Hrun.
    destruct (result (findJsonFiles h (folderInput h))) as [jsonFiles | e].
    2:{ destruct Hrun as [-> _]. simpl. lia. }
    destruct (Nat.eqb (length jsonFiles) 0).
    { destruct Hrun as [-> _]. simpl. lia. }
    destruct (result (prepareGlobal h (getInput h "schema"))) as [g | e].
    2:{ destruct Hrun as [-> _]. simpl. lia. }
    destruct Hrun as (results & _ & -> & _).
    destruct (Nat.ltb 0 (invalidCount results)); simpl; lia.
Qed.

(** X6. When discovery finds no file, the run warns and sets both outputs
    to zero, and nothing else: the global schema, if one is named, is not
    even read, so an unreadable one goes unnoticed, and the run does not
    fail. *)
Theorem run_without_files (h : Host) :
  fg h "**/*.json" (searchOptions h (folderInput h)) = Ok [] ->
  trace (run h)
  = [Info ("Scanning for JSON files in: " ++ folderInput h);
     Glob "**/*.json" (searchOptions h (folderInput h));
     Warning ("No JSON files found in " ++ folderInput h);
     SetOutput "valid-files" 0; SetOutput "invalid-files" 0]
  /\ failed (trace (run h)) = false.
Proof.
  intros Hnone.
  assert (Htrace : trace (run h)
                   = [Info ("Scanning for JSON files in: " ++ folderInput h);
                      Glob "**/*.json" (searchOptions h (folderInput h));
                      Warning ("No JSON files found in " ++ folderInput h);
                      SetOutput "valid-files" 0; SetOutput "invalid-files" 0])
    by (rewrite run_trace, Hnone; reflexivity).
  split; [exact Htrace | now rewrite Htrace].
Qed.

(** X6 at an empty tree, with a [schema] input that names a missing file. *)
Lemma run_without_files_witness :
  trace (run emptyTreeHost)
  = [Info "Scanning for JSON files in: .";
     Glob "**/*.json" (searchOptions emptyTreeHost ".");
     Warning "No JSON files found in .";
     SetOutput "valid-files" 0; SetOutput "invalid-files" 0]
  /\ failed (trace (run emptyTreeHost)) = false.
Proof.
  apply (run_without_files emptyTreeHost). reflexivity.
Defined.

Lemma reads_of_compileSchemaAt (h : Host) (p file : string) :
  In (FsRead file) (trace (compileSchemaAt h p)) -> file = p.
Proof.
  unfold compileSchemaAt, loadSchema, call, lift, bind, try_catch, throw.
  destruct (readFileSync h p) as [text |]; simpl.
  - destruct (JSON_parse h text) as [schema |]; simpl.
    + destruct (ajv_compile h ajvOptions schema); simpl;
        intros [[= <-] | [[=] | []]]; reflexivity.
    + intros [[= <-] | []]; reflexivity.
  - intros [[= <-] | []]; reflexivity.
Qed.

(** X7. When documents were found and the global schema cannot be loaded
    or compiled, the run stops there: after the log lines and the attempt on
    the schema it calls [core.setFailed] with [Action failed:] and the
    message of the exception, sets no output, and reads no document; the
    only file it reads is the schema. *)
Theorem run_aborts_on_global_schema_failure
        (h : Host) (jsonFiles : list string) (e : exn) :
  fg h "**/*.json" (searchOptions h (folderInput h)) = Ok jsonFiles ->
  jsonFiles <> [] ->
  truthy (getInput h "schema") = true ->
  result (compileSchemaAt h (getInput h "schema")) = Throw e ->
  trace (run h)
  = ([Info ("Scanning for JSON files in: " ++ folderInput h);
      Glob "**/*.json" (searchOptions h (folderInput h));
      Info ("Found " ++ String_of_nat (length jsonFiles) ++ " JSON file(s)");
      Info ("Using global schema: " ++ getInput h "schema")]
     ++ trace (compileSchemaAt h (getInput h "schema"))
     ++ [SetFailed ("Action failed: " ++ errorMessage e)])%list
  /\ verdictEvents (trace (run h))
     = [SetFailed ("Action failed: " ++ errorMessage e)]
  /\ (forall file : string,
      In (FsRead file) (trace (run h)) -> file = getInput h "schema")
  /\ (loads h (getInput h "schema") = false ->
      exists cause : exn, e = loadFailure (getInput h "schema") cause).
Proof.
  intros Hfound Hsome Htruthy Hthrow.
  assert (Hlen : Nat.eqb (length jsonFiles) 0 = false).
  { destruct jsonFiles; [congruence | reflexivity]. }
  assert (Hprep : prepareGlobal h (getInput h "schema")
                  = ((Info ("Using global schema: " ++ getInput h "schema")
                      :: trace (compileSchemaAt h (getInput h "schema"))),
                     Throw e)).
  { unfold prepareGlobal. rewrite Htruthy.
    rewrite (M_eta_pair (compileSchemaAt h (getInput h "schema"))), Hthrow.
    reflexivity. }
  assert (Htrace : trace (run h)
    = ([Info ("Scanning for JSON files in: " ++ folderInput h);
        Glob "**/*.json" (searchOptions h (folderInput h));
        Info ("Found " ++ String_of_nat (length jsonFiles)
              ++ " JSON file(s)");
        Info ("Using global schema: " ++ getInput h "schema")]
       ++ trace (compileSchemaAt h (getInput h "schema"))
       ++ [SetFailed ("Action failed: " ++ errorMessage e)])%list).
  { rewrite run_trace, Hfound, Hlen, Hprep. reflexivity. }
  split; [exact Htrace |]. split; [| split].
  - pose proof (run_shape h) as Hrun.
    rewrite findJsonFiles_eq in Hrun. cbv zeta in Hrun.
    fold (searchOptions h (folderInput h)) in Hrun.
    cbn [result snd] in Hrun.
    rewrite Hfound, Hlen, Hprep in Hrun. cbn [result snd] in Hrun.
    apply Hrun.
  - intros file. rewrite Htrace. cbn [app].
    intros [Hin | [Hin | [Hin | [Hin | Hin]]]]; try discriminate.
    apply in_app_iff in Hin as [Hin | [Hin | []]]; [| discriminate].
    now apply reads_of_compileSchemaAt in Hin.
  - intros Hno.
    destruct (loadSchema_shape h (getInput h "schema")) as [Hok | Hbad].
    + destruct Hok as (schema & _ & Hloads). congruence.
    + destruct Hbad as (cause & Hload).
      exists cause. revert Hthrow. unfold compileSchemaAt.
      rewrite Hload. unfold bind. now intros [= <-].
Qed.

(** X7 at the two shared documents under a global schema that is missing. *)
Lemma run_aborts_on_global_schema_failure_witness :
  trace (run missingGlobalHost)
  = [Info "Scanning for JSON files in: .";
     Glob "**/*.json" (searchOptions missingGlobalHost ".");
     Info "Found 3 JSON file(s)";
     Info "Using global schema: schemas/missing.json";
     FsRead "schemas/missing.json";
     SetFailed "Action failed: Failed to load schema from schemas/missing.json: Error: ENOENT: no such file or directory, open 'schemas/missing.json'"]
  /\ verdictEvents (trace (run missingGlobalHost))
     = [SetFailed "Action failed: Failed to load schema from schemas/missing.json: Error: ENOENT: no such file or directory, open 'schemas/missing.json'"]
  /\ (forall file : string,
      In (FsRead file) (trace (run missingGlobalHost)) ->
      file = "schemas/missing.json")
  /\ (loads missingGlobalHost "schemas/missing.json" = false ->
      exists cause : exn,
        loadFailure "schemas/missing.json"
          (JsError "Error"
             "ENOENT: no such file or directory, open 'schemas/missing.json'")
        = loadFailure "schemas/missing.json" cause).
Proof.
  apply (run_aborts_on_global_schema_failure missingGlobalHost
           ["/work/data/alice.json"; "/work/data/nobody.json";
            "/work/data/user.schema.json"]
           (loadFailure "schemas/missing.json"
              (JsError "Error"
                 "ENOENT: no such file or directory, open 'schemas/missing.json'")));
    [reflexivity | discriminate | reflexivity | reflexivity].
Defined.

(** ** Results and counts *)

Lemma partition_counts (results : list ValidationResult) :
  validCount results + invalidCount results = length results.
Proof.
  unfold validCount, invalidCount.
  induction results as [| r rest IH]; [reflexivity |].
  simpl. destruct (valid r); simpl; lia.
Qed.

Lemma checked_result (h : Host) (filePath : string)
      (chosen : option ValidateFunction) :
  exists r : ValidationResult,
    (match chosen with
     | Some validate => validateJsonSchema h filePath validate
     | None => validateJsonSyntax h filePath
     end) = ([FsRead filePath], Ok r)
    /\ file r = filePath
    /\ (valid r = true <-> error r = None).
Proof.
  destruct chosen as [validate |].
  - unfold validateJsonSchema, call, lift, bind, try_catch, ret.
    destruct (readFileSync h filePath) as [content |]; simpl;
      [| eexists; split; [reflexivity |]; simpl; split;
         [reflexivity | split; discriminate]].
    destruct (JSON_parse h content) as [data |]; simpl;
      [| eexists; split; [reflexivity |]; simpl; split;
         [reflexivity | split; discriminate]].
    destruct (validate data) as [[[|] errors] |]; simpl;
      eexists; (split; [reflexivity |]); simpl;
      (split; [reflexivity |]); split; (reflexivity || discriminate).
  - unfold validateJsonSyntax, call, lift, bind, try_catch, ret.
    destruct (readFileSync h filePath) as [content |]; simpl;
      [| eexists; split; [reflexivity |]; simpl; split;
         [reflexivity | split; discriminate]].
    destruct (JSON_parse h content); simpl;
      eexists; (split; [reflexivity |]); simpl;
      (split; [reflexivity |]); split; (reflexivity || discriminate).
Qed.

Lemma validateFile_result (h : Host) (g : option ValidateFunction)
      (filePath : string) :
  exists evs r,
    validateFile h g filePath = (evs, Ok r)
    /\ file r = filePath
    /\ wellFormed r.
Proof.
  unfold validateFile.
  assert (Hstep : exists evs chosen,
             fileValidateFor h g filePath = (evs, Ok chosen)).
  { destruct g as [validate |].
    - now exists [], (Some validate).
    - destruct (fileValidateFor_shape h filePath) as (evs & chosen & -> & _).
      now exists evs, chosen. }
  destruct Hstep as (evs & chosen & ->).
  destruct (checked_result h filePath chosen) as (r & Hr & Hfile & Hwf).
  unfold bind. rewrite Hr. now exists (evs ++ [FsRead filePath])%list, r.
Qed.

(** X8. The loop never throws and pushes exactly one result per discovered
    file, in discovery order, each naming its file.  Every result keeps the
    invariant of [ValidationResult]: a valid one carries no error text, an
    invalid one always carries one. *)
Theorem validateAll_results_follow_discovery
        (h : Host) (g : option ValidateFunction) (jsonFiles : list string) :
  exists evs results,
    validateAll h g jsonFiles = (evs, Ok results)
    /\ map (fun r => file r) results = jsonFiles
    /\ Forall wellFormed results.
Proof.
  induction jsonFiles as [| filePath rest (evs2 & results & Hall & Hmap & Hwf)].
  - exists [], []. repeat split. constructor.
  - destruct (validateFile_result h g filePath)
      as (evs1 & r & Hone & Hfile & Hr).
    cbn [validateAll]. rewrite Hone, Hall. unfold bind, ret.
    do 2 eexists. split; [reflexivity |].
    split; [simpl; now rewrite Hfile, Hmap | now constructor].
Qed.

(** X9. A run that found files and got past the preparation of the schema
    sets each output once, [valid-files] then [invalid-files]; the two
    counts add up to the number of files discovered; and it fails, with a
    message that gives the invalid count, exactly when that count is not
    zero. *)
Theorem run_reports_counts
        (h : Host) (jsonFiles : list string) (g : option ValidateFunction) :
  fg h "**/*.json" (searchOptions h (folderInput h)) = Ok jsonFiles ->
  jsonFiles <> [] ->
  result (prepareGlobal h (getInput h "schema")) = Ok g ->
  exists validFiles invalidFiles : nat,
    verdictEvents (trace (run h))
    = (SetOutput "valid-files" validFiles
       :: SetOutput "invalid-files" invalidFiles
       :: if Nat.ltb 0 invalidFiles
          then [SetFailed ("Found " ++ String_of_nat invalidFiles
                           ++ " invalid JSON file(s)")]
          else [])
    /\ validFiles + invalidFiles = length jsonFiles.
Proof.
  intros Hfound Hsome Hprep.
  assert (Hlen : Nat.eqb (length jsonFiles) 0 = false).
  { destruct jsonFiles; [congruence | reflexivity]. }
  pose proof (run_shape h) as Hrun.
  rewrite findJsonFiles_eq in Hrun. cbv zeta in Hrun.
  fold (searchOptions h (folderInput h)) in Hrun.
  cbn [result snd] in Hrun.
  rewrite Hfound, Hlen, Hprep in Hrun.
  destruct Hrun as (results & Hall & Hverdict & _).
  exists (validCount results), (invalidCount results).
  split; [exact Hverdict |].
  destruct (validateAll_shape h g jsonFiles)
    as (evs & results' & Hall' & Hcount & _).
  rewrite Hall' in Hall. cbn [result snd] in Hall.
  injection Hall as ->.
  now rewrite partition_counts.
Qed.

(** X9 at the two documents that share a schema: the document without the
    required properties is the invalid one. *)
Lemma run_reports_counts_witness :
  exists validFiles invalidFiles : nat,
    verdictEvents (trace (run Fixture.sharedHost))
    = (SetOutput "valid-files" validFiles
       :: SetOutput "invalid-files" invalidFiles
       :: if Nat.ltb 0 invalidFiles
          then [SetFailed ("Found " ++ String_of_nat invalidFiles
                           ++ " invalid JSON file(s)")]
          else [])
    /\ validFiles + invalidFiles = 3.
Proof.
  apply (run_reports_counts Fixture.sharedHost
           ["/work/data/alice.json"; "/work/data/nobody.json";
            "/work/data/user.schema.json"] None);
    [reflexivity | discriminate | reflexivity].
Defined.

Example shared_run_counts :
  verdictEvents (trace (run Fixture.sharedHost))
  = [SetOutput "valid-files" 2; SetOutput "invalid-files" 1;
     SetFailed "Found 1 invalid JSON file(s)"].
Proof. reflexivity. Qed.

(** X10. Without a global schema, a document that declares a local
    [$schema] that exists, loads and compiles is validated against it: after
    reading the document, testing the path, logging the choice and preparing
    the schema, the loop pushes the result of [validateJsonSchema] with the
    validator compiled from that path. *)
Theorem declared_schema_is_used
        (h : Host) (filePath content p : string) (evs : list event)
        (validate : ValidateFunction) :
  readFileSync h filePath = Ok content ->
  extractSchemaFromJson h content filePath = Some p ->
  existsSync h p = true ->
  compileSchemaAt h p = (evs, Ok validate) ->
  exists r : ValidationResult,
    validateJsonSchema h filePath validate = ([FsRead filePath], Ok r)
    /\ validateFile h None filePath
       = (FsRead filePath :: FsExists p
          :: Info ("Using schema from $schema property for "
                   ++ path.relative (cwd h) (cwd h) filePath ++ ": "
                   ++ path.relative (cwd h) (cwd h) p)
          :: (evs ++ [FsRead filePath])%list, Ok r).
Proof.
  intros Hread Hsome Hthere Hcomp.
  pose proof (extractSchemaFromJson_truthy h content filePath p Hsome)
    as Htruthy.
  destruct (validateJsonSchema_returns h filePath validate) as [r Hr].
  exists r. split; [exact Hr |].
  unfold validateFile, fileValidateFor, call, bind, try_catch, ret, emit.
  rewrite Hread, Hsome, Htruthy, Hthere, Hcomp, Hr.
  cbn [app]. now rewrite app_nil_r.
Qed.

(** X10 at the document of Alice, which declares the schema beside it and
    satisfies it. *)
Lemma declared_schema_is_used_witness :
  exists r : ValidationResult,
    validateJsonSchema Fixture.sharedHost "/work/data/alice.json"
      (Fixture.requiring ajvOptions ["name"; "email"])
    = ([FsRead "/work/data/alice.json"], Ok r)
    /\ validateFile Fixture.sharedHost None "/work/data/alice.json"
       = ([FsRead "/work/data/alice.json";
           FsExists "/work/data/user.schema.json";
           Info "Using schema from $schema property for data/alice.json: data/user.schema.json";
           FsRead "/work/data/user.schema.json";
           AjvCompile ajvOptions Fixture.userSchema;
           FsRead "/work/data/alice.json"], Ok r).
Proof.
  apply (declared_schema_is_used Fixture.sharedHost "/work/data/alice.json"
           Fixture.aliceText "/work/data/user.schema.json"
           [FsRead "/work/data/user.schema.json";
            AjvCompile ajvOptions Fixture.userSchema]
           (Fixture.requiring ajvOptions ["name"; "email"]));
    reflexivity.
Defined.

(** X11. A document that cannot be read does not stop the loop: with or
    without a global schema the result pushed for it is invalid and carries
    the message of the read error.  Without a global schema the read is
    attempted twice, once to look for [$schema] and once to validate. *)
Theorem unreadable_document_is_invalid
        (h : Host) (g : option ValidateFunction) (filePath : string)
        (e : exn) :
  readFileSync h filePath = Throw e ->
  validateFile h g filePath
  = ((match g with
      | Some _ => []
      | None => [FsRead filePath]
      end ++ [FsRead filePath])%list,
     Ok {| valid := false; file := filePath;
           error := Some (errorMessage e) |}).
Proof.
  intros Hread.
  unfold validateFile, fileValidateFor, validateJsonSchema,
    validateJsonSyntax, call, lift, bind, try_catch, ret.
  destruct g as [validate |]; rewrite ?Hread; reflexivity.
Qed.

(** X11 at a path that is not on the disk. *)
Lemma unreadable_document_is_invalid_witness :
  validateFile Fixture.danglingHost None "/work/gone.json"
  = ([FsRead "/work/gone.json"; FsRead "/work/gone.json"],
     Ok {| valid := false; file := "/work/gone.json";
           error := Some "ENOENT: no such file or directory, open '/work/gone.json'" |}).
Proof.
  apply (unreadable_document_is_invalid Fixture.danglingHost None
           "/work/gone.json"
           (JsError "Error"
              "ENOENT: no such file or directory, open '/work/gone.json'")).
  reflexivity.
Defined.

(** X12. A run depends on the action inputs through [folder] and [schema]
    only: setting any other input to any value leaves the whole run, its
    trace included, unchanged. *)
Theorem run_reads_folder_and_schema_only
        (h : Host) (name value : string) :
  name <> "folder" ->
  name <> "schema" ->
  run (withInput h name value) = run h.
Proof.
  intros Hfolder Hschema.
  assert (Hf : ("folder" =? name) = false)
    by (apply String.eqb_neq; congruence).
  assert (Hs : ("schema" =? name) = false)
    by (apply String.eqb_neq; congruence).
  unfold run, runBody, withInput. cbn [getInput].
  rewrite Hf, Hs. reflexivity.
Qed.

(** X12 at an input the action does not know. *)
Lemma run_reads_folder_and_schema_only_witness :
  run (withInput Fixture.sharedHost "verbose" "true")
  = run Fixture.sharedHost.
Proof.
  apply (run_reads_folder_and_schema_only Fixture.sharedHost
           "verbose" "true"); discriminate.
Defined.

(** ** What the report logs *)

Lemma reportInvalid_trace (h : Host) (invalidFiles : list ValidationResult) :
  trace (reportInvalid h invalidFiles) = map (invalidLine h) invalidFiles.
Proof.
  induction invalidFiles as [| r rest IH]; [reflexivity |].
  cbn [reportInvalid map]. rewrite trace_bind.
  cbn [emit trace fst result snd app]. now rewrite IH.
Qed.

Lemma report_trace (h : Host) (results : list ValidationResult) :
  trace (report h results)
  = ([Info (newline ++ "Validation Results:");
      Info ("✓ Valid files: " ++ String_of_nat (validCount results))]
     ++ (if Nat.ltb 0 (invalidCount results)
         then Error ("✗ Invalid files: "
                     ++ String_of_nat (invalidCount results))
              :: map (invalidLine h)
                     (filter (fun r => negb (valid r)) results)
         else [])
     ++ [SetOutput "valid-files" (validCount results);
         SetOutput "invalid-files" (invalidCount results);
         if Nat.ltb 0 (invalidCount results)
         then SetFailed ("Found " ++ String_of_nat (invalidCount results)
                         ++ " invalid JSON file(s)")
         else Info (newline ++ "✓ All JSON files are valid!")])%list.
Proof.
  unfold report, validCount, invalidCount. cbv zeta.
  set (invalidFiles := filter (fun r => negb (valid r)) results).
  destruct (reportInvalid_shape h invalidFiles) as (Hres & _ & _).
  pose proof (reportInvalid_trace h invalidFiles) as Hlines.
  destruct (Nat.ltb 0 (length invalidFiles));
    repeat (rewrite ?result_bind, ?trace_bind, ?Hres, ?Hlines;
            cbn [emit ret result snd trace fst app]);
    rewrite <- ?app_assoc; reflexivity.
Qed.

(** X13. The report names every invalid file: for each invalid result it
    logs one error line with the path of the file relative to the working
    directory and the error text, in the order of the results, after one
    header line with their number; when every result is valid it logs no
    error line at all. *)
Theorem report_names_every_invalid_file
        (h : Host) (results : list ValidationResult) :
  filter isError (trace (report h results))
  = (if Nat.ltb 0 (invalidCount results)
     then Error ("✗ Invalid files: " ++ String_of_nat (invalidCount results))
          :: map (invalidLine h) (filter (fun r => negb (valid r)) results)
     else [])
  /\ (forall r : ValidationResult,
      In r results -> valid r = false ->
      In (invalidLine h r) (trace (report h results)))
  /\ (forall (r : ValidationResult) (text : string),
      error r = Some text ->
      invalidLine h r
      = Error ("  - " ++ path.relative (cwd h) (cwd h) (file r) ++ ": "
               ++ text)).
Proof.
  rewrite report_trace.
  assert (Hlines : forall l, filter isError (map (invalidLine h) l)
                             = map (invalidLine h) l).
  { induction l as [| r l IH]; [reflexivity |]. simpl. now rewrite IH. }
  split; [| split].
  - rewrite !filter_app. cbn [filter isError app].
    destruct (Nat.ltb 0 (invalidCount results)) eqn:Hpos.
    + cbn [filter isError]. rewrite Hlines.
      cbn [filter isError]. now rewrite app_nil_r.
    + reflexivity.
  - intros r Hin Hbad.
    assert (Hkept : In r (filter (fun r => negb (valid r)) results))
      by (apply filter_In; split; [exact Hin | now rewrite Hbad]).
    assert (Hpos : Nat.ltb 0 (invalidCount results) = true).
    { apply Nat.ltb_lt. unfold invalidCount.
      destruct (filter (fun r => negb (valid r)) results);
        [destruct Hkept | simpl; lia]. }
    rewrite Hpos. apply in_app_iff. right. apply in_app_iff. left.
    right. now apply in_map.
  - intros r text Htext. unfold invalidLine. now rewrite Htext.
Qed.

Lemma existsb_isAlarm_loop (evs : list event) :
  (forall e, In e evs -> isLoopEvent e = true) ->
  existsb isAlarm evs = false.
Proof.
  intros Hloop.
  destruct (existsb isAlarm evs) eqn:Halarm; [| reflexivity].
  apply existsb_exists in Halarm as (e & Hin & He).
  specialize (Hloop e Hin). now destruct e.
Qed.

Lemma existsb_isAlarm_report (h : Host) (results : list ValidationResult) :
  existsb isAlarm (trace (report h results))
  = Nat.ltb 0 (invalidCount results).
Proof.
  rewrite report_trace, !existsb_app.
  destruct (Nat.ltb 0 (invalidCount results)); reflexivity.
Qed.

Lemma run_alarms_by_path (h : Host) :
  existsb isAlarm (trace (run h))
  = match fg h "**/*.json" (searchOptions h (folderInput h)) with
    | Throw _ => true
    | Ok jsonFiles =>
        if Nat.eqb (length jsonFiles) 0 then true
        else
          match result (prepareGlobal h (getInput h "schema")) with
          | Throw _ => true
          | Ok g =>
              match result (validateAll h g jsonFiles) with
              | Ok results => Nat.ltb 0 (invalidCount results)
              | Throw _ => true
              end
          end
    end.
Proof.
  rewrite run_trace. cbn [existsb isAlarm orb].
  destruct (fg h _ _) as [jsonFiles | e]; [| reflexivity].
  destruct (Nat.eqb (length jsonFiles) 0); [reflexivity |].
  cbn [existsb isAlarm orb]. rewrite existsb_app.
  rewrite (existsb_isAlarm_loop _ (loop_events_prepareGlobal h _)).
  destruct (result (prepareGlobal h (getInput h "schema"))) as [g | e];
    [| reflexivity].
  rewrite existsb_app.
  rewrite (existsb_isAlarm_loop _ (loop_events_validateAll h g jsonFiles)).
  destruct (result (validateAll h g jsonFiles)) as [results | e];
    [| reflexivity].
  apply existsb_isAlarm_report.
Qed.

(** X14. A run raises a warning, an error line or a failure exactly when
    it fails or finds no file.  So a run that found files logs info lines
    only exactly when it does not fail; nothing that happens inside the loop
    (an unreadable or unusable [$schema] of a document included) raises a
    warning or an error by itself. *)
Theorem run_alarms (h : Host) :
  existsb isAlarm (trace (run h))
  = failed (trace (run h))
    || match fg h "**/*.json" (searchOptions h (folderInput h)) with
       | Ok [] => true
       | _ => false
       end.
Proof.
  rewrite run_alarms_by_path, <- failed_verdictEvents.
  pose proof (run_shape h) as Hrun.
  rewrite findJsonFiles_eq in Hrun. cbv zeta in Hrun.
  fold (searchOptions h (folderInput h)) in Hrun.
  cbn [result snd] in Hrun.
  destruct (fg h _ _) as [jsonFiles | e].
  2:{ destruct Hrun as [-> _]. reflexivity. }
  destruct jsonFiles as [| first rest].
  { destruct Hrun as [-> _]. reflexivity. }
  cbn [length Nat.eqb] in *.
  destruct (result (prepareGlobal h (getInput h "schema"))) as [g | e].
  2:{ destruct Hrun as [-> _]. reflexivity. }
  destruct Hrun as (results & -> & -> & _).
  unfold failed. cbn [existsb isSetFailed orb].
  destruct (Nat.ltb 0 (invalidCount results)); reflexivity.
Qed.

(** ** More on schema references *)

Lemma absolute_is_not_a_url (schemaRef : string) :
  path.isAbsolute schemaRef = true ->
  startsWith schemaRef "http://" || startsWith schemaRef "https://" = false.
Proof.
  destruct schemaRef as [| c rest]; [discriminate |].
  simpl. intros Hslash. apply Ascii.eqb_eq in Hslash. subst c. reflexivity.
Qed.

(** X15. A [$schema] that is an absolute path is taken as it stands: the
    result is that path, normalized, and neither the location of the
    document nor the working directory has any part in it. *)
Theorem absolute_schema_reference
        (h : Host) (content filePath : string)
        (members : list (string * json)) (schemaRef : string) :
  JSON_parse h content = Ok (JObject members) ->
  getProperty "$schema" members = Some (JString schemaRef) ->
  path.isAbsolute schemaRef = true ->
  extractSchemaFromJson h content filePath
  = Some (path.resolve "/" [schemaRef])
  /\ path.resolve "/" [schemaRef]
     = "/" ++ path.normalizeString (schemaRef ++ "/") false.
Proof.
  intros Hparse Hprop Habs.
  assert (Hne : (schemaRef =? "") = false)
    by (destruct schemaRef; [discriminate | reflexivity]).
  unfold extractSchemaFromJson.
  rewrite Hparse, Hprop, (absolute_is_not_a_url schemaRef Habs).
  unfold path.resolve. simpl. rewrite Hne, Habs. now split.
Qed.

(** X15 at a document deep in the tree that names [/schemas/...]. *)
Lemma absolute_schema_reference_witness :
  extractSchemaFromJson rootedHost rootedText "/work/deep/down/doc.json"
  = Some "/schemas/user.schema.json"
  /\ path.resolve "/" ["/schemas/user.schema.json"]
     = "/" ++ path.normalizeString ("/schemas/user.schema.json" ++ "/") false.
Proof.
  exact (absolute_schema_reference rootedHost rootedText
           "/work/deep/down/doc.json"
           [("$schema", JString "/schemas/user.schema.json")]
           "/schemas/user.schema.json" eq_refl eq_refl eq_refl).
Defined.

(** ** Independence of the documents *)

(** X16. The documents are validated one after the other, each on its
    own: the trace of the loop is the traces of the single documents put
    end to end in discovery order, and the result pushed for a document is
    the one [validateFile] gives for it alone.  Nothing is carried from one
    document to the next, so an invalid, unreadable or schema-less document
    changes nothing for the others. *)
Theorem documents_are_validated_independently
        (h : Host) (g : option ValidateFunction) (jsonFiles : list string) :
  trace (validateAll h g jsonFiles)
  = flat_map (fun filePath => trace (validateFile h g filePath)) jsonFiles
  /\ exists results : list ValidationResult,
       result (validateAll h g jsonFiles) = Ok results
       /\ Forall2 (fun filePath r => result (validateFile h g filePath) = Ok r)
                  jsonFiles results.
Proof.
  induction jsonFiles as [| filePath rest (Htrace & results & Hres & Hall)].
  - split; [reflexivity |]. exists []. split; [reflexivity | constructor].
  - destruct (validateFile_result h g filePath) as (evs & r & Hone & _).
    cbn [validateAll flat_map].
    rewrite trace_bind, !result_bind, Hone.
    cbn [result snd trace fst].
    rewrite trace_bind, result_bind, Hres, Htrace.
    cbn [ret result snd trace fst]. rewrite app_nil_r.
    split; [reflexivity |].
    exists (r :: results). split; [reflexivity |].
    constructor; [now rewrite Hone | exact Hall].
Qed.

(** ** A whole run under a global schema *)

(** X17. Under a global schema that loads and compiles, a run that found
    files does this and nothing more: it logs its three lines, reads the
    schema once, compiles it once, reads every document once in discovery
    order, and reports.  It never tests a path for existence. *)
Theorem run_under_global_schema
        (h : Host) (jsonFiles : list string) (text : string) (schema : json)
        (validate : ValidateFunction) :
  fg h "**/*.json" (searchOptions h (folderInput h)) = Ok jsonFiles ->
  jsonFiles <> [] ->
  truthy (getInput h "schema") = true ->
  readFileSync h (getInput h "schema") = Ok text ->
  JSON_parse h text = Ok schema ->
  ajv_compile h ajvOptions schema = Ok validate ->
  exists results : list ValidationResult,
    result (validateAll h (Some validate) jsonFiles) = Ok results
    /\ trace (run h)
       = ([Info ("Scanning for JSON files in: " ++ folderInput h);
           Glob "**/*.json" (searchOptions h (folderInput h));
           Info ("Found " ++ String_of_nat (length jsonFiles)
                 ++ " JSON file(s)");
           Info ("Using global schema: " ++ getInput h "schema");
           FsRead (getInput h "schema");
           AjvCompile ajvOptions schema]
          ++ map FsRead jsonFiles
          ++ trace (report h results))%list.
Proof.
  intros Hfound Hsome Htruthy Hread Hparse Hcomp.
  assert (Hlen : Nat.eqb (length jsonFiles) 0 = false).
  { destruct jsonFiles; [congruence | reflexivity]. }
  assert (Hprep : prepareGlobal h (getInput h "schema")
                  = ([Info ("Using global schema: " ++ getInput h "schema");
                      FsRead (getInput h "schema");
                      AjvCompile ajvOptions schema], Ok (Some validate))).
  { unfold prepareGlobal, compileSchemaAt, loadSchema, call, lift, bind,
      try_catch, ret, emit.
    now rewrite Htruthy, Hread, Hparse, Hcomp. }
  destruct (validateAll_shape h (Some validate) jsonFiles)
    as (evs & results & Hall & _).
  exists results. split; [now rewrite Hall |].
  rewrite run_trace, Hfound, Hlen, Hprep.
  cbn [result snd trace fst app].
  rewrite validateAll_global_trace, Hall. reflexivity.
Qed.

(** X17 at the run of [Fixture.globalHost]. *)
Lemma run_under_global_schema_witness :
  exists results : list ValidationResult,
    result (validateAll Fixture.globalHost
              (Some (Fixture.requiring ajvOptions ["name"; "email"]))
              ["/work/data/alice.json"; "/work/data/nobody.json";
               "/work/data/user.schema.json"]) = Ok results
    /\ trace (run Fixture.globalHost)
       = ([Info "Scanning for JSON files in: .";
           Glob "**/*.json" (searchOptions Fixture.globalHost ".");
           Info "Found 3 JSON file(s)";
           Info "Using global schema: data/user.schema.json";
           FsRead "data/user.schema.json";
           AjvCompile ajvOptions Fixture.userSchema]
          ++ map FsRead ["/work/data/alice.json"; "/work/data/nobody.json";
                         "/work/data/user.schema.json"]
          ++ trace (report Fixture.globalHost results))%list.
Proof.
  apply (run_under_global_schema Fixture.globalHost
           ["/work/data/alice.json"; "/work/data/nobody.json";
            "/work/data/user.schema.json"]
           Fixture.userSchemaText Fixture.userSchema
           (Fixture.requiring ajvOptions ["name"; "email"]));
    [reflexivity | discriminate | reflexivity | reflexivity | reflexivity
     | reflexivity].
Defined.

(** ** The earlier entry point and the present one *)

Lemma legacy_run_trace (h : Host) :
  trace (Legacy.run h)
  = Info ("Scanning for JSON files in: " ++ folderInput h)
    :: Glob "**/*.json" (searchOptions h (folderInput h))
    :: match fg h "**/*.json" (searchOptions h (folderInput h)) with
       | Throw e => [SetFailed ("Action failed: " ++ errorMessage e)]
       | Ok jsonFiles =>
           if Nat.eqb (length jsonFiles) 0 then
             [Warning ("No JSON files found in " ++ folderInput h);
              SetOutput "valid-files" 0; SetOutput "invalid-files" 0]
           else
             Info ("Found " ++ String_of_nat (length jsonFiles)
                   ++ " JSON file(s)")
             :: (trace (Legacy.prepare h (getInput h "schema"))
                 ++ match result (Legacy.prepare h (getInput h "schema")) with
                    | Throw e =>
                        [SetFailed ("Action failed: " ++ errorMessage e)]
                    | Ok g =>
                        trace (Legacy.validateAll h g jsonFiles)
                        ++ match result (Legacy.validateAll h g jsonFiles)
                           with
                           | Ok results => trace (report h results)
                           | Throw e =>
                               [SetFailed ("Action failed: "
                                           ++ errorMessage e)]
                           end
                    end)%list
       end.
Proof.
  unfold Legacy.run, Legacy.runBody. fold (folderInput h). cbv zeta.
  rewrite trace_try_catch.
  repeat (rewrite ?result_bind, ?trace_bind;
          cbn [emit result snd trace fst app]).
  rewrite findJsonFiles_eq. cbv zeta. fold (searchOptions h (folderInput h)).
  cbn [result snd trace fst app].
  destruct (fg h "**/*.json" (searchOptions h (folderInput h)))
    as [jsonFiles | e]; [| reflexivity].
  destruct (Nat.eqb (length jsonFiles) 0).
  { repeat (rewrite ?result_bind, ?trace_bind;
            cbn [emit result snd trace fst app]).
    reflexivity. }
  repeat (rewrite ?result_bind, ?trace_bind;
          cbn [emit result snd trace fst app]).
  do 3 f_equal. rewrite <- !app_assoc. f_equal.
  destruct (result (Legacy.prepare h (getInput h "schema"))) as [g | e];
    [| reflexivity].
  repeat (rewrite ?result_bind, ?trace_bind;
          cbn [emit result snd trace fst app]).
  destruct (result (Legacy.validateAll h g jsonFiles)) as [results | e].
  - destruct (report_shape h results) as (_ & _ & ->).
    now rewrite !app_nil_r.
  - now rewrite app_nil_r.
Qed.

Lemma legacy_prepare (h : Host) (schemaPath : string) :
  result (Legacy.prepare h schemaPath) = result (prepareGlobal h schemaPath)
  /\ forall e, In e (trace (Legacy.prepare h schemaPath)) ->
               isLoopEvent e = true.
Proof.
  unfold Legacy.prepare, prepareGlobal.
  destruct (truthy schemaPath); [| split; [reflexivity | intros e []]].
  split.
  - rewrite !result_bind. reflexivity.
  - intros e Hin.
    apply In_trace_bind in Hin as [[<- | []] | (u & _ & Hin)];
      [reflexivity |].
    apply In_trace_bind in Hin as [Hin | (validate & _ & [])].
    exact (loop_events_compileSchemaAt h schemaPath e Hin).
Qed.

Lemma syntax_only_when_nothing_loadable (h : Host) (filePath : string) :
  declaresLoadableSchema h filePath = false ->
  result (validateFile h None filePath)
  = result (validateJsonSyntax h filePath).
Proof.
  unfold declaresLoadableSchema. intros Hnot.
  assert (Hstep : result (fileValidateFor h None filePath) = Ok None).
  { unfold fileValidateFor, call, bind, try_catch, ret, emit.
    destruct (readFileSync h filePath) as [content |]; [| reflexivity].
    destruct (extractSchemaFromJson h content filePath) as [p |] eqn:Hex;
      [| reflexivity].
    rewrite (extractSchemaFromJson_truthy h content filePath p Hex).
    destruct (existsSync h p); [| reflexivity].
    simpl in Hnot.
    destruct (loadSchema_shape h p) as [(schema & _ & Hl) | (cause & Hl)];
      [congruence |].
    unfold compileSchemaAt. rewrite Hl. reflexivity. }
  unfold validateFile. rewrite result_bind, Hstep. reflexivity.
Qed.

Lemma legacy_validateAll (h : Host) (g : option ValidateFunction)
      (jsonFiles : list string) :
  (g = None ->
   Forall (fun filePath => declaresLoadableSchema h filePath = false)
          jsonFiles) ->
  result (Legacy.validateAll h g jsonFiles)
  = result (validateAll h g jsonFiles)
  /\ forall e, In e (trace (Legacy.validateAll h g jsonFiles)) ->
               isLoopEvent e = true.
Proof.
  induction jsonFiles as [| filePath rest IH]; intros Hplain.
  - split; [reflexivity | intros e []].
  - assert (Hrest : g = None ->
                    Forall (fun f => declaresLoadableSchema h f = false) rest).
    { intros Hg. specialize (Hplain Hg). now inversion Hplain. }
    destruct (IH Hrest) as [Hres Hevs].
    destruct (checked_result h filePath g) as (r & Hcheck & _).
    assert (Hone : result (validateFile h g filePath) = Ok r).
    { destruct g as [validate |].
      - now rewrite validateFile_global, Hcheck.
      - rewrite syntax_only_when_nothing_loadable, Hcheck; [reflexivity |].
        specialize (Hplain eq_refl). now inversion Hplain. }
    cbn [Legacy.validateAll validateAll]. cbv zeta. split.
    + rewrite !result_bind, Hcheck, Hone. cbn [result snd].
      rewrite !result_bind, Hres. reflexivity.
    + intros e Hin.
      apply In_trace_bind in Hin as [Hin | (r' & _ & Hin)].
      * rewrite Hcheck in Hin. destruct Hin as [<- | []]. reflexivity.
      * apply In_trace_bind in Hin as [Hin | (results & _ & [])].
        exact (Hevs e Hin).
Qed.

Lemma verdictEvents_loop (evs : list event) :
  (forall e, In e evs -> isLoopEvent e = true) -> verdictEvents evs = [].
Proof.
  apply filter_loop_events. now intros [].
Qed.

(** X18. The present [run] agrees with the earlier one wherever the
    earlier one had something to say: under a global schema, and without one
    when no discovered document declares a local [$schema] that exists and
    loads, both set the same outputs and fail alike, with the same
    message. *)
Theorem run_agrees_with_earlier_run (h : Host) :
  (truthy (getInput h "schema") = false ->
   forall jsonFiles : list string,
     fg h "**/*.json" (searchOptions h (folderInput h)) = Ok jsonFiles ->
     Forall (fun filePath => declaresLoadableSchema h filePath = false)
            jsonFiles) ->
  verdictEvents (trace (Legacy.run h)) = verdictEvents (trace (run h)).
Proof.
  intros Hplain.
  rewrite legacy_run_trace, run_trace.
  unfold verdictEvents. cbn [filter isVerdict].
  destruct (fg h _ _) as [jsonFiles | e]; [| reflexivity].
  destruct (Nat.eqb (length jsonFiles) 0); [reflexivity |].
  cbn [filter isVerdict]. rewrite !filter_app.
  destruct (legacy_prepare h (getInput h "schema")) as [Hprep Hquiet].
  fold (verdictEvents (trace (Legacy.prepare h (getInput h "schema")))).
  fold (verdictEvents (trace (prepareGlobal h (getInput h "schema")))).
  rewrite (verdictEvents_loop _ Hquiet).
  rewrite (verdictEvents_loop _ (loop_events_prepareGlobal h _)).
  rewrite Hprep.
  destruct (prepareGlobal_shape h (getInput h "schema")) as (_ & _ & Hg).
  destruct (result (prepareGlobal h (getInput h "schema"))) as [g | e];
    [| reflexivity].
  assert (Hfiles : g = None ->
            Forall (fun f => declaresLoadableSchema h f = false) jsonFiles).
  { intros ->. destruct (truthy (getInput h "schema")) eqn:Htruthy.
    - destruct Hg as (validate & Habs & _). discriminate.
    - now apply Hplain. }
  destruct (legacy_validateAll h g jsonFiles Hfiles) as [Hres Hloop].
  rewrite !filter_app.
  fold (verdictEvents (trace (Legacy.validateAll h g jsonFiles))).
  fold (verdictEvents (trace (validateAll h g jsonFiles))).
  rewrite (verdictEvents_loop _ Hloop).
  rewrite (verdictEvents_loop _ (loop_events_validateAll h g jsonFiles)).
  now rewrite Hres.
Qed.

(** X18 at a tree in which no document declares a schema. *)
Lemma run_agrees_with_earlier_run_witness :
  verdictEvents (trace (Legacy.run plainHost))
  = verdictEvents (trace (run plainHost)).
Proof.
  apply (run_agrees_with_earlier_run plainHost).
  intros _ jsonFiles Hfound. injection Hfound as <-.
  repeat constructor.
Defined.

(** Where the two part: a document that declares a schema it violates is
    valid for the earlier [run], which checks its syntax only, and invalid
    for the present one. *)
Example earlier_run_ignores_declared_schema :
  verdictEvents (trace (Legacy.run Fixture.sharedHost))
  = [SetOutput "valid-files" 3; SetOutput "invalid-files" 0]
  /\ verdictEvents (trace (run Fixture.sharedHost))
     = [SetOutput "valid-files" 2; SetOutput "invalid-files" 1;
        SetFailed "Found 1 invalid JSON file(s)"].
Proof. split; reflexivity. Qed.

(** ** The syntax check and bytes that are not text *)

(** C7, as stated, fails: a file whose bytes are not UTF-8 is no read
    failure.  The read returns the decoded text, with U+FFFD in place of the
    byte that could not be decoded, and the file is reported valid. *)
Lemma undecodable_file_is_valid :
  Utf8.wellFormed undecodableBytes = false
  /\ Fixture.read undecodableDisk "/work/bad.json" = Ok undecodableBytes
  /\ readFileSync undecodableHost "/work/bad.json"
     = Ok (Utf8.decode undecodableBytes)
  /\ validateJsonSyntax undecodableHost "/work/bad.json"
     = ([FsRead "/work/bad.json"],
        Ok {| valid := true; file := "/work/bad.json"; error := None |}).
Proof. repeat split; reflexivity. Qed.

(** C7, amended. [validateJsonSyntax] never throws: for every path it
    reads the file once and returns a result value for it.  When the read or
    the parse throws, the result is invalid and its error is the message of
    the [Error] thrown (the text of the value, when it is not an [Error]);
    when the file reads and parses, the result is valid and has no error.
    Bytes that are not UTF-8 are not a read failure: where the file system
    reads through Node's decoder, a file whose bytes can be read always
    reads, and it is valid exactly when the decoded text parses. *)
Theorem validateJsonSyntax_never_throws (h : Host) (filePath : string) :
  exists r : ValidationResult,
    validateJsonSyntax h filePath = ([FsRead filePath], Ok r)
    /\ file r = filePath
    /\ (forall name text : string,
        readFileSync h filePath = Throw (JsError name text) ->
        valid r = false /\ error r = Some text)
    /\ (forall text : string,
        readFileSync h filePath = Throw (JsValue text) ->
        valid r = false /\ error r = Some text)
    /\ (forall content name text : string,
        readFileSync h filePath = Ok content ->
        JSON_parse h content = Throw (JsError name text) ->
        valid r = false /\ error r = Some text)
    /\ (forall content text : string,
        readFileSync h filePath = Ok content ->
        JSON_parse h content = Throw (JsValue text) ->
        valid r = false /\ error r = Some text)
    /\ (forall (content : string) (data : json),
        readFileSync h filePath = Ok content ->
        JSON_parse h content = Ok data ->
        valid r = true /\ error r = None)
    /\ (forall (readBytes : string -> outcome string) (bytes : string),
        readFileSync h filePath = readUtf8 readBytes filePath ->
        readBytes filePath = Ok bytes ->
        readFileSync h filePath = Ok (Utf8.decode bytes)
        /\ (valid r = true <->
            exists data : json, JSON_parse h (Utf8.decode bytes) = Ok data)).
Proof.
  unfold validateJsonSyntax, call, lift, bind, try_catch, ret.
  destruct (readFileSync h filePath) as [content | e] eqn:Hread.
  - destruct (JSON_parse h content) as [data | e] eqn:Hparse; simpl;
      (eexists; split; [reflexivity |]); simpl;
      (split; [reflexivity |]);
      (split; [intros; discriminate |]);
      (split; [intros; discriminate |]).
    + split; [intros c n t [= <-]; congruence |].
      split; [intros c t [= <-]; congruence |].
      split; [intros c d [= <-] _; now split |].
      intros readBytes bytes Hvia Hbytes.
      unfold readUtf8 in Hvia. rewrite Hbytes in Hvia.
      injection Hvia as ->. split; [reflexivity |].
      split; [intros _; now exists data | reflexivity].
    + split; [intros c n t [= <-] Hc; rewrite Hparse in Hc;
              injection Hc as ->; now split |].
      split; [intros c t [= <-] Hc; rewrite Hparse in Hc;
              injection Hc as ->; now split |].
      split; [intros c d [= <-]; congruence |].
      intros readBytes bytes Hvia Hbytes.
      unfold readUtf8 in Hvia. rewrite Hbytes in Hvia.
      injection Hvia as ->. split; [reflexivity |].
      split; [discriminate | intros [d Hd]; congruence].
  - simpl. eexists; split; [reflexivity |]; simpl.
    split; [reflexivity |].
    split; [intros n t [= ->]; now split |].
    split; [intros t [= ->]; now split |].
    split; [intros; discriminate |].
    split; [intros; discriminate |].
    split; [intros; discriminate |].
    intros readBytes bytes Hvia Hbytes.
    unfold readUtf8 in Hvia. rewrite Hbytes in Hvia. discriminate.
Qed.

(** ** Validators and the schemas they were compiled from *)






(** Compiled without [allErrors], a validator that honours the contract
    records the first violation only: the option the action passes is what
    makes the report complete. *)
Example first_violation_without_allErrors :
  ajvReport {| allErrors := false; withFormats := true |} nobodyViolations
  = (false, Some (firstn 1 nobodyViolations))
  /\ ajvReport ajvOptions nobodyViolations = (false, Some nobodyViolations).
Proof. split; reflexivity. Qed.

(** ** What discovery leaves out *)

Lemma globs_of_run (h : Host) :
  filter isGlob (trace (run h))
  = [Glob "**/*.json" (searchOptions h (folderInput h))].
Proof.
  rewrite run_trace. cbn [filter isGlob]. f_equal.
  destruct (fg h _ _) as [jsonFiles | e]; [| reflexivity].
  destruct (Nat.eqb (length jsonFiles) 0); [reflexivity |].
  cbn [filter isGlob]. rewrite filter_app.
  rewrite (filter_isGlob_loop _ (loop_events_prepareGlobal h _)).
  destruct (result (prepareGlobal h (getInput h "schema"))) as [g | e];
    [| reflexivity].
  rewrite filter_app.
  rewrite (filter_isGlob_loop _ (loop_events_validateAll h g jsonFiles)).
  destruct (result (validateAll h g jsonFiles)); [| reflexivity].
  now rewrite filter_isGlob_report.
Qed.

(** C3, as stated, fails: with the [ignore] input set to a pattern for
    [build], the file under [build] is still discovered, and the file under
    [dist], which that pattern does not match, is still left out. *)
Lemma ignore_input_is_not_consulted :
  getInput Fixture.ignoreHost "ignore" = "**/build/**"
  /\ FastGlob.matches true "**/build/**" "build/b.json" = true
  /\ FastGlob.matches true "**/build/**" "dist/d.json" = false
  /\ exists files : list string,
       result (findJsonFiles Fixture.ignoreHost
                 (folderInput Fixture.ignoreHost)) = Ok files
       /\ In "/work/build/b.json" files
       /\ ~ In "/work/dist/d.json" files.
Proof.
  repeat split; try reflexivity.
  eexists. split; [reflexivity |]. split; [simpl; tauto |].
  intros [Habs | [Habs | []]]; discriminate.
Qed.

(** C3, amended. File discovery hands [fast-glob] one fixed list of
    exclusion patterns, for [node_modules], [dist], [lib] and [.git], and
    nothing else: in every run the one call of [fast-glob] carries that
    list, and the action reads no [ignore] input, so whatever its value the
    run is the same.  Given that [fast-glob] honours the [ignore] list of
    that call, no path it returns has one of those four names as a segment
    of its path relative to the search folder. *)
Theorem findJsonFiles_applies_fixed_exclusions (h : Host) (folder : string) :
  honoursIgnore h "**/*.json" (searchOptions h folder) ->
  findJsonFiles h folder
  = ([Glob "**/*.json" (searchOptions h folder)],
     fg h "**/*.json" (searchOptions h folder))
  /\ fg_ignore (searchOptions h folder)
     = ["**/node_modules/**"; "**/dist/**"; "**/lib/**"; "**/.git/**"]
  /\ (forall (files : list string) (p name : string),
      result (findJsonFiles h folder) = Ok files ->
      In p files ->
      In name excludedNames ->
      ~ In name (path.split
                   (path.relative (cwd h) (fg_cwd (searchOptions h folder))
                                  p)))
  /\ (forall (pattern : string) (options : FgOptions),
      In (Glob pattern options) (trace (run h)) ->
      pattern = "**/*.json"
      /\ fg_ignore options
         = ["**/node_modules/**"; "**/dist/**"; "**/lib/**"; "**/.git/**"])
  /\ (forall value : string, run (withInput h "ignore" value) = run h).
Proof.
  intros Hfg.
  assert (Hcall : findJsonFiles h folder
                  = ([Glob "**/*.json" (searchOptions h folder)],
                     fg h "**/*.json" (searchOptions h folder))).
  { rewrite findJsonFiles_eq. reflexivity. }
  split; [exact Hcall |]. split; [reflexivity |].
  split; [| split; [| reflexivity]].
  - intros files p name Hfound Hin Hname Hseg.
    rewrite Hcall in Hfound. cbn [result snd] in Hfound.
    pose proof (Hfg files Hfound p Hin) as Hnone.
    change (fg_ignore (searchOptions h folder)) with ignorePatterns in Hnone.
    rewrite (ignorePatterns_match_excluded name _ Hname Hseg) in Hnone.
    discriminate.
  - intros pattern options Hin.
    assert (Hkept : In (Glob pattern options) (filter isGlob (trace (run h))))
      by (apply filter_In; now split).
    rewrite globs_of_run in Hkept.
    destruct Hkept as [[= <- <-] | []]. now split.
Qed.

(** C3, amended, at the tree with a [build] and a [dist] directory. *)
Lemma findJsonFiles_applies_fixed_exclusions_witness :
  findJsonFiles Fixture.ignoreHost "."
  = ([Glob "**/*.json" (searchOptions Fixture.ignoreHost ".")],
     fg Fixture.ignoreHost "**/*.json" (searchOptions Fixture.ignoreHost "."))
  /\ fg_ignore (searchOptions Fixture.ignoreHost ".")
     = ["**/node_modules/**"; "**/dist/**"; "**/lib/**"; "**/.git/**"]
  /\ (forall (files : list string) (p name : string),
      result (findJsonFiles Fixture.ignoreHost ".") = Ok files ->
      In p files ->
      In name excludedNames ->
      ~ In name (path.split (path.relative "/work" "/work" p)))
  /\ (forall (pattern : string) (options : FgOptions),
      In (Glob pattern options) (trace (run Fixture.ignoreHost)) ->
      pattern = "**/*.json"
      /\ fg_ignore options
         = ["**/node_modules/**"; "**/dist/**"; "**/lib/**"; "**/.git/**"])
  /\ (forall value : string,
      run (withInput Fixture.ignoreHost "ignore" value)
      = run Fixture.ignoreHost).
Proof.
  apply (findJsonFiles_applies_fixed_exclusions Fixture.ignoreHost ".").
  intros files Hfound p Hin.
  injection Hfound as <-.
  destruct Hin as [<- | [<- | []]]; reflexivity.
Defined.

(** A folder input that ends in a separator finds the same files. *)
Example findJsonFiles_folder_with_separator :
  result (findJsonFiles Fixture.sharedHost "data/")
  = Ok ["/work/data/alice.json"; "/work/data/nobody.json";
        "/work/data/user.schema.json"].
Proof. reflexivity. Qed.
